(** * linkedart.js: language helpers and part/classification traversal

    A shallow embedding of [LanguageHelpers] (normalizeLanguageId,
    getLanguageId, doesObjectLanguageMatch) and of [ObjectHelpers]
    (getCarriedOutBy), together with the JavaScript built-ins those
    functions call, and the properties the specification states of them. *)

From Stdlib Require Import ZArith NArith String Ascii List Bool Lia.
From Stdlib Require Import DecimalString.
Import ListNotations.

Open Scope string_scope.

(** ** Values

    Documents, language identifiers and options are JavaScript values.
    Numbers are the integer-valued ones; a string is a sequence of code
    units below 256.  Arrays and objects carry the address they were
    allocated at, because [Set] and [Array.prototype.includes] compare
    them by identity.  [VNative] stands for a built-in object that is only
    ever reached through a prototype (for instance the value of
    [Object.prototype.constructor]); documents and options, being JSON-like
    data, do not contain one. *)

Definition loc := nat.

#[warnings="-register-all"]
Inductive value : Type :=
| VUndefined
| VNull
| VBool (b : bool)
| VNum (n : Z)
| VStr (s : string)
| VArr (a : loc) (elems : list value)
| VObj (a : loc) (fields : list (string * value))
| VNative (name : string).

(** ** Completions: a call returns or throws *)

Inductive exn : Type := TypeError.

Inductive result (A : Type) : Type :=
| Ok (a : A)
| Throw (e : exn).

Arguments Ok {A} a.
Arguments Throw {A} e.

Definition bind {A B : Type} (r : result A) (k : A -> result B) : result B :=
  match r with
  | Ok a => k a
  | Throw e => Throw e
  end.

Notation "x <- r ;; k" := (bind r (fun x => k))
  (at level 61, r at next level, right associativity).

Definition returns {A : Type} (r : result A) : Prop :=
  match r with
  | Ok _ => True
  | Throw _ => False
  end.

(** ** Strings *)

Module Str.

Definition code (c : ascii) : N := N_of_ascii c.

Definition between (lo hi : N) (c : ascii) : bool :=
  (lo <=? code c)%N && (code c <=? hi)%N.

(** [String.prototype.toLowerCase] on code units below 256: the ASCII
    capitals and the Latin-1 capitals U+00C0..U+00DE except U+00D7. *)
Definition lower_char (c : ascii) : ascii :=
  if between 65 90 c || between 192 214 c || between 216 222 c
  then ascii_of_N (code c + 32)
  else c.

Fixpoint toLowerCase (s : string) : string :=
  match s with
  | EmptyString => EmptyString
  | String c r => String (lower_char c) (toLowerCase r)
  end.

(** The character class [[a-zA-Z]]. *)
Definition is_alpha (c : ascii) : bool :=
  between 97 122 c || between 65 90 c.

Fixpoint all_alpha (s : string) : bool :=
  match s with
  | EmptyString => true
  | String c r => is_alpha c && all_alpha r
  end.

Definition nonempty (s : string) : bool :=
  match s with
  | EmptyString => false
  | String _ _ => true
  end.

(** [s.match(/\/[a-zA-Z]+$/)] finds a match: some position holds a slash
    and everything after it, up to the end of the input, is one or more
    letters. *)
Fixpoint matches_slash_token (s : string) : bool :=
  match s with
  | EmptyString => false
  | String c r =>
      (Ascii.eqb c "/" && nonempty r && all_alpha r) || matches_slash_token r
  end.

(** [s.lastIndexOf(c)], -1 when [c] does not occur. *)
Fixpoint lastIndexOf (s : string) (c : ascii) : Z :=
  match s with
  | EmptyString => (-1)%Z
  | String d r =>
      let i := lastIndexOf r c in
      if (0 <=? i)%Z then (i + 1)%Z
      else if Ascii.eqb d c then 0%Z else (-1)%Z
  end.

Fixpoint drop (n : nat) (s : string) : string :=
  match n, s with
  | O, _ => s
  | S _, EmptyString => EmptyString
  | S m, String _ r => drop m r
  end.

(** [s.substring(start)]: a negative start counts as 0. *)
Definition substring_from (start : Z) (s : string) : string :=
  drop (Z.to_nat start) s.

Definition is_digit (c : ascii) : bool := between 48 57 c.

Fixpoint all_digits (s : string) : bool :=
  match s with
  | EmptyString => true
  | String c r => is_digit c && all_digits r
  end.

Fixpoint digits_value (acc : N) (s : string) : N :=
  match s with
  | EmptyString => acc
  | String c r => digits_value (acc * 10 + (code c - 48))%N r
  end.

(** A property key that is a canonical array index: decimal digits with
    no leading zero. *)
Definition array_index (k : string) : option nat :=
  match k with
  | EmptyString => None
  | String c r =>
      if all_digits k && (negb (Ascii.eqb c "0") || negb (nonempty r))
      then Some (N.to_nat (digits_value 0 k))
      else None
  end.

Definition of_Z (n : Z) : string := NilZero.string_of_int (Z.to_int n).

(** *** [StringToNumber], as far as [==] needs it: is the number zero? *)

(** White space and line terminators below 256. *)
Definition is_space (c : ascii) : bool :=
  between 9 13 c || (code c =? 32)%N || (code c =? 160)%N.

Fixpoint trim_left (s : string) : string :=
  match s with
  | EmptyString => EmptyString
  | String c r => if is_space c then trim_left r else s
  end.

Fixpoint trim_right (s : string) : string :=
  match s with
  | EmptyString => EmptyString
  | String c r =>
      let r' := trim_right r in
      if is_space c && negb (nonempty r') then EmptyString else String c r'
  end.

Definition trim (s : string) : string := trim_right (trim_left s).

Fixpoint span (p : ascii -> bool) (s : string) : string * string :=
  match s with
  | EmptyString => (EmptyString, EmptyString)
  | String c r =>
      if p c then let (a, b) := span p r in (String c a, b)
      else (EmptyString, s)
  end.

Fixpoint all_in (p : ascii -> bool) (s : string) : bool :=
  match s with
  | EmptyString => true
  | String c r => p c && all_in p r
  end.

Definition is_zero_char (c : ascii) : bool := Ascii.eqb c "0".
Definition is_hex (c : ascii) : bool :=
  is_digit c || between 97 102 c || between 65 70 c.
Definition is_octal (c : ascii) : bool := between 48 55 c.
Definition is_binary (c : ascii) : bool := between 48 49 c.

(** [0x..], [0o..] and [0b..] literals: [Some z] when [s] is one, [z]
    telling whether its value is zero. *)
Definition radix_literal_zero (s : string) : option bool :=
  match s with
  | String "0" (String r ds) =>
      let digit :=
        if Ascii.eqb r "x" || Ascii.eqb r "X" then Some is_hex
        else if Ascii.eqb r "o" || Ascii.eqb r "O" then Some is_octal
        else if Ascii.eqb r "b" || Ascii.eqb r "B" then Some is_binary
        else None in
      match digit with
      | Some p => Some (nonempty ds && all_in p ds && all_in is_zero_char ds)
      | None => None
      end
  | _ => None
  end.

Definition strip_sign (s : string) : bool * string :=
  match s with
  | String "+" r => (false, r)
  | String "-" r => (true, r)
  | _ => (false, s)
  end.

(** The exponent part: absent, or [e] followed by a signed integer. *)
Definition exponent (s : string) : option Z :=
  match s with
  | EmptyString => Some 0%Z
  | String c r =>
      if Ascii.eqb c "e" || Ascii.eqb c "E" then
        let (neg, ds) := strip_sign r in
        if nonempty ds && all_digits ds then
          let e := Z.of_N (digits_value 0 ds) in
          Some (if neg then (- e)%Z else e)
        else None
      else None
  end.

(** A decimal literal [m * 10^e] with [m > 0] converts to zero exactly
    when it is at most half the least positive double, 2^-1075. *)
Definition rounds_to_zero (m : N) (e : Z) : bool :=
  (m =? 0)%N ||
  ((e <? 0)%Z && (Z.of_N m * 2 ^ 1075 <=? 10 ^ (- e))%Z).

Definition decimal_literal_zero (s : string) : bool :=
  let (_, u) := strip_sign s in
  let (ip, r1) := span is_digit u in
  let '(fp, r2) :=
    match r1 with
    | String "." t => span is_digit t
    | _ => (EmptyString, r1)
    end in
  (nonempty ip || nonempty fp) &&
  match exponent r2 with
  | Some e =>
      rounds_to_zero (digits_value 0 (ip ++ fp))
                     (e - Z.of_nat (String.length fp))
  | None => false
  end.

(** [StringToNumber(s)] is zero. *)
Definition to_number_is_zero (s : string) : bool :=
  let t := trim s in
  match t with
  | EmptyString => true
  | _ =>
      match radix_literal_zero t with
      | Some z => z
      | None => decimal_literal_zero t
      end
  end.

End Str.

(** ** Built-in operations on values *)

Module Js.

(** An own property of an object; of two fields with one key the later
    one stands, as in an object literal. *)
Fixpoint own (fields : list (string * value)) (k : string) : option value :=
  match fields with
  | [] => None
  | (k', v) :: rest =>
      match own rest k with
      | Some w => Some w
      | None => if String.eqb k' k then Some v else None
      end
  end.

(** The properties of [Object.prototype], which every object and every
    boxed primitive inherits. *)
Definition object_prototype_keys : list string :=
  [ "constructor"; "__proto__"; "hasOwnProperty"; "isPrototypeOf";
    "propertyIsEnumerable"; "toLocaleString"; "toString"; "valueOf";
    "__defineGetter__"; "__defineSetter__"; "__lookupGetter__";
    "__lookupSetter__" ].

Definition inherited (k : string) : value :=
  if existsb (String.eqb k) object_prototype_keys
  then VNative ("Object.prototype." ++ k)
  else VUndefined.

Definition char_at (s : string) (i : nat) : option value :=
  match String.get i s with
  | Some c => Some (VStr (String c EmptyString))
  | None => None
  end.

(** The string-keyed properties of the prototypes of arrays, strings,
    numbers and booleans (ECMAScript 2023, with the legacy string methods);
    each chain ends in [Object.prototype]. *)
Definition array_prototype_keys : list string :=
  [ "__proto__"; "constructor"; "at"; "concat"; "copyWithin"; "entries";
    "every"; "fill"; "filter"; "find"; "findIndex"; "findLast";
    "findLastIndex"; "flat"; "flatMap"; "forEach"; "includes"; "indexOf";
    "join"; "keys"; "lastIndexOf"; "map"; "pop"; "push"; "reduce";
    "reduceRight"; "reverse"; "shift"; "slice"; "some"; "sort"; "splice";
    "toLocaleString"; "toReversed"; "toSorted"; "toSpliced"; "toString";
    "unshift"; "values"; "with" ].

Definition string_prototype_keys : list string :=
  [ "__proto__"; "constructor"; "anchor"; "at"; "big"; "blink"; "bold";
    "charAt"; "charCodeAt"; "codePointAt"; "concat"; "endsWith"; "fixed";
    "fontcolor"; "fontsize"; "includes"; "indexOf"; "italics";
    "lastIndexOf"; "link"; "localeCompare"; "match"; "matchAll";
    "normalize"; "padEnd"; "padStart"; "repeat"; "replace"; "replaceAll";
    "search"; "slice"; "small"; "split"; "startsWith"; "strike"; "sub";
    "substr"; "substring"; "sup"; "toLocaleLowerCase"; "toLocaleUpperCase";
    "toLowerCase"; "toString"; "toUpperCase"; "trim"; "trimEnd"; "trimLeft";
    "trimRight"; "trimStart"; "valueOf" ].

Definition number_prototype_keys : list string :=
  [ "__proto__"; "constructor"; "toExponential"; "toFixed";
    "toLocaleString"; "toPrecision"; "toString"; "valueOf" ].

Definition boolean_prototype_keys : list string :=
  [ "__proto__"; "constructor"; "toString"; "valueOf" ].

(** What a receiver whose prototype is [proto] finds under [k] when it has
    no own property of that name: the property of its prototype, or else
    the one of [Object.prototype]. *)
Definition inherited_through (proto : string) (keys : list string)
           (k : string) : value :=
  if existsb (String.eqb k) keys
  then VNative (proto ++ "." ++ k)
  else inherited k.

(** [v[k]]: reading a property of undefined or null throws; arrays and
    strings have [length] and their indices; what is not an own property
    comes from the prototype chain.  The properties of a built-in object
    itself, beyond those of [Object.prototype], are not listed: the helpers
    are never handed one. *)
Definition get_member (v : value) (k : string) : result value :=
  match v with
  | VUndefined | VNull => Throw TypeError
  | VObj _ fields =>
      match own fields k with
      | Some w => Ok w
      | None => Ok (inherited k)
      end
  | VArr _ elems =>
      let proto := inherited_through "Array.prototype" array_prototype_keys in
      if String.eqb k "length" then Ok (VNum (Z.of_nat (List.length elems)))
      else match Str.array_index k with
           | Some i =>
               match nth_error elems i with
               | Some w => Ok w
               | None => Ok (proto k)
               end
           | None => Ok (proto k)
           end
  | VStr s =>
      let proto := inherited_through "String.prototype" string_prototype_keys in
      if String.eqb k "length" then Ok (VNum (Z.of_nat (String.length s)))
      else match Str.array_index k with
           | Some i =>
               match char_at s i with
               | Some w => Ok w
               | None => Ok (proto k)
               end
           | None => Ok (proto k)
           end
  | VNum _ =>
      Ok (inherited_through "Number.prototype" number_prototype_keys k)
  | VBool _ =>
      Ok (inherited_through "Boolean.prototype" boolean_prototype_keys k)
  | VNative _ => Ok (inherited k)
  end.

(** [ToBoolean]. *)
Definition truthy (v : value) : bool :=
  match v with
  | VUndefined | VNull => false
  | VBool b => b
  | VNum n => negb (n =? 0)%Z
  | VStr s => Str.nonempty s
  | VArr _ _ | VObj _ _ | VNative _ => true
  end.

(** [v == undefined]: only undefined and null are loosely equal to
    undefined. *)
Definition eq_undefined (v : value) : bool :=
  match v with
  | VUndefined | VNull => true
  | _ => false
  end.

(** [typeof v === "string"]. *)
Definition is_string (v : value) : bool :=
  match v with
  | VStr _ => true
  | _ => false
  end.

(** [ToString].  An array joins its elements with commas, undefined and
    null elements giving the empty string; a plain object prints through
    the inherited [toString] unless an own [toString] field, which in
    JSON-like data is not callable, shadows it. *)
Fixpoint to_string (v : value) : result string :=
  match v with
  | VUndefined => Ok "undefined"
  | VNull => Ok "null"
  | VBool true => Ok "true"
  | VBool false => Ok "false"
  | VNum n => Ok (Str.of_Z n)
  | VStr s => Ok s
  | VArr _ elems =>
      (fix join (l : list value) : result string :=
         match l with
         | [] => Ok ""
         | e :: rest =>
             s <- match e with
                  | VUndefined | VNull => Ok ""
                  | _ => to_string e
                  end ;;
             match rest with
             | [] => Ok s
             | _ => t <- join rest ;; Ok (s ++ "," ++ t)
             end
         end) elems
  | VObj _ fields =>
      match own fields "toString" with
      | Some _ => Throw TypeError
      | None => Ok "[object Object]"
      end
  | VNative name => Ok ("function " ++ name ++ "() { [native code] }")
  end.

(** [v == false].  The boolean becomes the number 0; a number is compared
    with it, a string is converted to a number first, an object to a
    primitive (its string) and then to a number; undefined and null are
    loosely equal only to each other. *)
Definition eq_false (v : value) : result bool :=
  match v with
  | VUndefined | VNull => Ok false
  | VBool b => Ok (negb b)
  | VNum n => Ok (n =? 0)%Z
  | VStr s => Ok (Str.to_number_is_zero s)
  | VArr _ _ | VObj _ _ | VNative _ =>
      s <- to_string v ;; Ok (Str.to_number_is_zero s)
  end.

(** [SameValueZero], the comparison of [Set] and of
    [Array.prototype.includes]: primitives by value, objects by
    identity. *)
Definition same_value_zero (x y : value) : bool :=
  match x, y with
  | VUndefined, VUndefined => true
  | VNull, VNull => true
  | VBool a, VBool b => Bool.eqb a b
  | VNum a, VNum b => (a =? b)%Z
  | VStr a, VStr b => String.eqb a b
  | VArr a _, VArr b _ => Nat.eqb a b
  | VObj a _, VObj b _ => Nat.eqb a b
  | VNative a, VNative b => String.eqb a b
  | _, _ => false
  end.

(** [l.includes(x)]. *)
Definition includes (l : list value) (x : value) : bool :=
  existsb (same_value_zero x) l.

(** [set.add(x)] on a [Set] kept in insertion order. *)
Definition set_add (set : list value) (x : value) : list value :=
  if includes set x then set else (set ++ [x])%list.

(** [l.map(f)] for a callback that may throw. *)
Fixpoint array_map {A B : Type} (f : A -> result B) (l : list A)
  : result (list B) :=
  match l with
  | [] => Ok []
  | x :: rest => y <- f x ;; ys <- array_map f rest ;; Ok (y :: ys)
  end.

End Js.

(** Method calls the helpers make on values they were handed. *)

Module Method.

(** [v.toLowerCase()]: only a string has the method. *)
Definition toLowerCase (v : value) : result string :=
  match v with
  | VStr s => Ok (Str.toLowerCase s)
  | _ => Throw TypeError
  end.

(** [v.forEach(callback)], the callback updating a captured variable of
    type [S]: only an array has the method. *)
Fixpoint each {S : Type} (body : S -> value -> result S) (l : list value)
         (st : S) : result S :=
  match l with
  | [] => Ok st
  | x :: rest => st' <- body st x ;; each body rest st'
  end.

Definition forEach {S : Type} (v : value) (body : S -> value -> result S)
           (st : S) : result S :=
  match v with
  | VArr _ elems => each body elems st
  | _ => Throw TypeError
  end.

End Method.

(** ** LanguageHelpers *)

Module LanguageHelpers.

Definition DEFAULT_LANGUAGE_LOOKUP : value :=
  VObj 0
    [ ("en", VStr "http://vocab.getty.edu/aat/300388277");
      ("es", VStr "http://vocab.getty.edu/aat/300389311");
      ("fr", VStr "http://vocab.getty.edu/aat/300388306") ].

Definition NO_LANGUAGE : value := VStr "NO_LANGUAGE".

(** The lookup map in force: [languageOptions.lookupMap] when the options
    and the map are both truthy, the default table otherwise. *)
Definition active_lookupMap (languageOptions : value) : result value :=
  if Js.truthy languageOptions then
    custom <- Js.get_member languageOptions "lookupMap" ;;
    if Js.truthy custom then Ok custom else Ok DEFAULT_LANGUAGE_LOOKUP
  else Ok DEFAULT_LANGUAGE_LOOKUP.

(** The key looked up for a lower-cased identifier: the letters after the
    last slash when the identifier ends in [/letters]. *)
Definition simplify (lang : string) : string :=
  if Str.matches_slash_token lang
  then Str.substring_from (Str.lastIndexOf lang "/" + 1) lang
  else lang.

Definition normalizeLanguageId (lang_id languageOptions : value)
  : result value :=
  if Js.eq_undefined lang_id then Ok NO_LANGUAGE
  else
    lookupMap <- active_lookupMap languageOptions ;;
    lang <- Method.toLowerCase lang_id ;;
    lookup <- Js.get_member lookupMap (simplify lang) ;;
    if negb (Js.eq_undefined lookup) then Ok lookup else Ok lang_id.

(** The body of the [forEach] callback of [getLanguageId]. *)
Definition add_language (toReturn : list value) (lang : value)
  : result (list value) :=
  if Js.eq_undefined lang then Ok (Js.set_add toReturn NO_LANGUAGE)
  else if Js.is_string lang then Ok (Js.set_add toReturn lang)
  else
    id <- Js.get_member lang "id" ;;
    if Js.truthy id then Ok (Js.set_add toReturn id) else Ok toReturn.

Definition getLanguageId (obj languageOptions : value)
  : result (list value) :=
  if Js.eq_undefined obj then Ok [NO_LANGUAGE]
  else
    language <- Js.get_member obj "language" ;;
    if Js.eq_undefined language then Ok [NO_LANGUAGE]
    else if Js.is_string language then
      id <- normalizeLanguageId language languageOptions ;;
      Ok [id]
    else
      toReturn <- Method.forEach language add_language [] ;;
      Js.array_map (fun item => normalizeLanguageId item languageOptions)
                   toReturn.

(** The default parameter [languageOptions = {}]. *)
Definition default_options (languageOptions : value) : value :=
  match languageOptions with
  | VUndefined => VObj 1 []
  | _ => languageOptions
  end.

Definition doesObjectLanguageMatch (object language languageOptions : value)
  : result bool :=
  let languageOptions := default_options languageOptions in
  if Js.eq_undefined language then Ok true
  else
    lang_ids <- getLanguageId object languageOptions ;;
    wanted <- normalizeLanguageId language languageOptions ;;
    if Js.includes lang_ids wanted then Ok true
    else
      fallbackLanguage <- Js.get_member languageOptions "fallbackLanguage" ;;
      fallback_matches <-
        (if negb (Js.eq_undefined fallbackLanguage) then
           fallback <- normalizeLanguageId fallbackLanguage languageOptions ;;
           Ok (Js.includes lang_ids fallback)
         else Ok false) ;;
      if fallback_matches then Ok true
      else if Js.includes lang_ids NO_LANGUAGE
              || (List.length lang_ids =? 0)%nat then
        opt_out <- Js.get_member languageOptions "includeItemsWithNoLanguage" ;;
        excluded <- Js.eq_false opt_out ;;
        if excluded then Ok false else Ok true
      else Ok false.

End LanguageHelpers.

(** ** LinkedArtHelpers

    [ObjectHelpers] imports [getSubfieldInsidePart] and
    [getValuesByClassification] from [LinkedArtHelpers.js], and
    [normalizeAatId] from [BasicHelpers.js]; neither file is among the
    sources. *)

Module LinkedArtHelpers.

(** A field of a document node; a node that is not an object, and a key
    the node does not carry, give undefined. *)
Definition field (v : value) (k : string) : value :=
  match v with
  | VObj _ fields =>
      match Js.own fields k with
      | Some w => w
      | None => VUndefined
      end
  | _ => VUndefined
  end.

(** A field value read as a sequence: an array is its elements, an absent
    value is empty, any other value stands alone. *)
Definition as_array (v : value) : list value :=
  match v with
  | VArr _ elems => elems
  | VUndefined | VNull => []
  | _ => [v]
  end.

(** What reading [innerKey] on one node contributes to the result. *)
Definition hits (innerKey : string) (node : value) : list value :=
  as_array (field node innerKey).

(** Modelled from the spec: [getSubfieldInsidePart] of
    [LinkedArtHelpers.js], which is not among the sources.  "If
    object[outerKey] is absent, return empty.  Collect innerKey values
    found directly on object[outerKey], and also innerKey values found on
    every element of object[outerKey].part (if present); always return a
    flat array."  The result is built the way the sentence reads: the
    direct values are collected first, then each part in turn adds its
    own. *)
Definition getSubfieldInsidePart (object : value) (outerKey innerKey : string)
  : list value :=
  let outer := field object outerKey in
  if Js.eq_undefined outer then []
  else
    fold_left (fun found part => (found ++ hits innerKey part)%list)
              (as_array (field outer "part"))
              (hits innerKey outer).

Section Classification.

(** [normalizeAatId] is taken as given: any normalization of
    classification identifiers. *)
Variable normalizeAatId : string -> string.

(** The identifier of a classification reference: the reference itself
    when it is a bare string, its [id] when it is an object. *)
Definition classification_id (ref : value) : option string :=
  match ref with
  | VStr s => Some s
  | VObj _ _ =>
      match field ref "id" with
      | VStr s => Some s
      | _ => None
      end
  | _ => None
  end.

Definition classifications (node : value) : list value :=
  as_array (field node "classified_as").

(** The requested identifiers, one string or an array of strings,
    normalized. *)
Fixpoint requested_ids (l : list value) : list string :=
  match l with
  | [] => []
  | VStr s :: rest => normalizeAatId s :: requested_ids rest
  | _ :: rest => requested_ids rest
  end.

Definition id_matches (wanted : list string) (ref : value) : bool :=
  match classification_id ref with
  | Some i => existsb (String.eqb (normalizeAatId i)) wanted
  | None => false
  end.

(** Modelled from the spec: the matching predicate of the
    classification filter, whose code ([LinkedArtHelpers.js]) is not
    among the sources.  "Normalize every classification id the entry
    carries and test set membership against the normalized requestedIds.
    Transitive form: additionally test whether any of the entry's
    classifications itself carries a classified_as whose id matches." *)
Definition matches_classification (wanted : list string) (entry : value)
  : bool :=
  existsb (id_matches wanted) (classifications entry).

Definition matches_transitively (wanted : list string) (entry : value)
  : bool :=
  existsb (fun ref =>
             id_matches wanted ref
             || existsb (id_matches wanted) (classifications ref))
          (classifications entry).

Fixpoint filter_entries (keep : value -> result bool) (l : list value)
  : result (list value) :=
  match l with
  | [] => Ok []
  | entry :: rest =>
      b <- keep entry ;;
      kept <- filter_entries keep rest ;;
      Ok (if b then entry :: kept else kept)
  end.

(** Modelled from the spec: [filterByClassification], whose code
    ([LinkedArtHelpers.js]) is not among the sources.  Absent entries
    are empty; an entry is kept when it matches one of the requested
    identifiers, directly or through one of its classifications, and
    satisfies the language constraint. *)
Definition filterByClassification
           (entries requestedIds language languageOptions : value)
  : result (list value) :=
  let wanted := requested_ids (as_array requestedIds) in
  filter_entries
    (fun entry =>
       if matches_transitively wanted entry
       then LanguageHelpers.doesObjectLanguageMatch
              entry language languageOptions
       else Ok false)
    (as_array entries).

End Classification.

End LinkedArtHelpers.

(** ** ObjectHelpers *)

Module ObjectHelpers.

Definition PRODUCED_BY : string := "produced_by".
Definition CARRIED_OUT_BY : string := "carried_out_by".

Definition getCarriedOutBy (object : value) : list value :=
  LinkedArtHelpers.getSubfieldInsidePart object PRODUCED_BY CARRIED_OUT_BY.

Definition REFERRED_TO_BY : string := "referred_to_by".

(** What a call does that passes through code outside the sources: it
    returns, it throws an exception of the engine, or an imported function
    throws an exception of its own, of some type [E]. *)
Inductive outcome (E A : Type) : Type :=
| Returned (a : A)
| Thrown (e : exn)
| Raised (e : E).

Arguments Returned {E A} a.
Arguments Thrown {E A} e.
Arguments Raised {E A} e.

Definition and_then {E A B : Type} (r : outcome E A) (k : A -> outcome E B)
  : outcome E B :=
  match r with
  | Returned a => k a
  | Thrown e => Thrown e
  | Raised e => Raised e
  end.

Definition lift {E A : Type} (r : result A) : outcome E A :=
  match r with
  | Ok a => Returned a
  | Throw e => Thrown e
  end.

Notation "x <-- r ;; k" := (and_then r (fun x => k))
  (at level 61, r at next level, right associativity).

Section Dimensions.

(** The imports of [getDimensionsDescriptions] that are not among the
    sources are taken as given: the vocabulary [aat.json], [normalizeAatId]
    and [getValuesByClassification], the functions with whatever they
    return or throw. *)
Variable E : Type.
Variable aat : value.
Variable normalizeAatId : value -> outcome E value.
Variable getValuesByClassification :
  value -> value -> value -> value -> outcome E value.

(** The second parameter is destructured, [= {}] standing in for an
    undefined argument; each default applies to an undefined property
    only. *)
Definition getDimensionsDescriptions (submittedResource options : value)
  : outcome E value :=
  let options :=
    match options with
    | VUndefined => VObj 2 []
    | _ => options
    end in
  requested <-- lift (Js.get_member options "requestedClassification") ;;
  requestedClassification <--
    match requested with
    | VUndefined => lift (Js.get_member aat "DIMENSIONS_DESCRIPTION")
    | _ => Returned requested
    end ;;
  language <-- lift (Js.get_member options "language") ;;
  given <-- lift (Js.get_member options "languageOptions") ;;
  let languageOptions :=
    match given with
    | VUndefined => VObj 3 []
    | _ => given
    end in
  requestedClassification <-- normalizeAatId requestedClassification ;;
  entries <-- lift (Js.get_member submittedResource REFERRED_TO_BY) ;;
  getValuesByClassification entries requestedClassification language
                            languageOptions.

End Dimensions.

End ObjectHelpers.

Import LanguageHelpers LinkedArtHelpers ObjectHelpers.

(** ** Shapes of input *)

(** An entry of a language array that contributes an identifier: an
    undefined or null entry (the sentinel), a string, or a value whose [id]
    is truthy. *)
Definition usable (lang : value) : bool :=
  Js.eq_undefined lang || Js.is_string lang
  || match Js.get_member lang "id" with
     | Ok id => Js.truthy id
     | Throw _ => false
     end.

(** A language identifier the helpers take: a string, undefined or null. *)
Definition absent_or_string (v : value) : bool :=
  Js.eq_undefined v || Js.is_string v.

(** An entry of a language array: undefined or null, a string, or a value
    whose [id] is a string or is falsy. *)
Definition well_formed_entry (lang : value) : bool :=
  absent_or_string lang
  || match Js.get_member lang "id" with
     | Ok id => negb (Js.truthy id) || Js.is_string id
     | Throw _ => false
     end.

(** A fragment: undefined or null, or a value whose [language] is absent, a
    string, or an array of well-formed entries. *)
Definition well_formed_fragment (obj : value) : bool :=
  Js.eq_undefined obj
  || match Js.get_member obj "language" with
     | Ok (VArr _ elems) => forallb well_formed_entry elems
     | Ok language => absent_or_string language
     | Throw _ => false
     end.

Definition primitive (v : value) : bool :=
  match v with
  | VArr _ _ | VObj _ _ | VNative _ => false
  | _ => true
  end.

(** Options: not null, the fallback language absent or a string, and
    [includeItemsWithNoLanguage] a primitive. *)
Definition well_formed_options (languageOptions : value) : bool :=
  match languageOptions with
  | VNull => false
  | _ =>
      match Js.get_member (default_options languageOptions) "fallbackLanguage",
            Js.get_member (default_options languageOptions)
                          "includeItemsWithNoLanguage" with
      | Ok fallbackLanguage, Ok opt_out =>
          absent_or_string fallbackLanguage && primitive opt_out
      | _, _ => false
      end
  end.

(** The identifier an entry of a language array contributes to the [Set]
    of [getLanguageId], if any. *)
Definition raw_id (lang : value) : option value :=
  if Js.eq_undefined lang then Some NO_LANGUAGE
  else if Js.is_string lang then Some lang
  else match Js.get_member lang "id" with
       | Ok id => if Js.truthy id then Some id else None
       | Throw _ => None
       end.

(** A fragment that declares no language. *)
Definition unlabelled (obj : value) : bool :=
  Js.eq_undefined obj
  || match Js.get_member obj "language" with
     | Ok language => Js.eq_undefined language
     | Throw _ => false
     end.

(** * Properties *)

(** ** The built-ins on small inputs *)

Example toLowerCase_examples :
  map Str.toLowerCase [ "EN"; "http://Vocab.Getty.edu/Language/EN"; "fr-CA" ]
  = [ "en"; "http://vocab.getty.edu/language/en"; "fr-ca" ].
Proof. reflexivity. Qed.

Example simplify_examples :
  map simplify [ "http://vocab.getty.edu/language/en"; "en"; "a/b/";
                 "http://vocab.getty.edu/aat/300388277"; "/fr"; "x/y1" ]
  = [ "en"; "en"; "a/b/"; "http://vocab.getty.edu/aat/300388277"; "fr";
      "x/y1" ].
Proof. reflexivity. Qed.

Example to_number_is_zero_examples :
  map Str.to_number_is_zero
      [ ""; "  "; "0"; "0.0"; "-0"; ".0"; "0x0"; "0e5"; " 00 "; "1e-400";
        "1"; "."; "e5"; "abc"; "0x"; "-0x0"; "Infinity"; "0,0"; "1e-300" ]
  = [ true; true; true; true; true; true; true; true; true; true;
      false; false; false; false; false; false; false; false; false ].
Proof. vm_compute. reflexivity. Qed.

Example eq_false_examples :
  map Js.eq_false
      [ VBool false; VBool true; VNum 0; VNum 1; VStr ""; VStr "0";
        VStr "false"; VNull; VUndefined; VArr 10 []; VArr 10 [ VNum 0 ];
        VArr 10 [ VNum 0; VNum 0 ]; VObj 10 [] ]
  = map Ok [ true; false; true; false; true; true;
             false; false; false; true; true;
             false; false ].
Proof. vm_compute. reflexivity. Qed.

Example get_member_examples :
  map (fun '(v, k) => Js.get_member v k)
      [ (VArr 10 [ VStr "a" ], "join"); (VArr 10 [ VStr "a" ], "0");
        (VArr 10 [ VStr "a" ], "length"); (VStr "abc", "length");
        (VStr "abc", "1"); (VStr "abc", "trim"); (VObj 10 [], "constructor");
        (VObj 10 [ ("en", VNull) ], "en"); (VObj 10 [], "en");
        (VNum 5, "language"); (VNull, "language") ]
  = [ Ok (VNative "Array.prototype.join"); Ok (VStr "a"); Ok (VNum 1);
      Ok (VNum 3); Ok (VStr "b"); Ok (VNative "String.prototype.trim");
      Ok (VNative "Object.prototype.constructor"); Ok VNull; Ok VUndefined;
      Ok VUndefined; Throw TypeError ].
Proof. vm_compute. reflexivity. Qed.

(** ** The examples of the documentation comments *)

Example normalizeLanguageId_url :
  normalizeLanguageId (VStr "http://vocab.getty.edu/language/en") VUndefined
  = Ok (VStr "http://vocab.getty.edu/aat/300388277").
Proof. reflexivity. Qed.

Example normalizeLanguageId_code :
  normalizeLanguageId (VStr "en") VUndefined
  = Ok (VStr "http://vocab.getty.edu/aat/300388277").
Proof. reflexivity. Qed.

Example getLanguageId_string :
  getLanguageId (VObj 10 [ ("language", VStr "en") ]) VUndefined
  = Ok [ VStr "http://vocab.getty.edu/aat/300388277" ].
Proof. reflexivity. Qed.

Example getLanguageId_no_language :
  getLanguageId (VObj 10 [])
                (VObj 11 [ ("lookupMap", VObj 12 [ ("en", VStr "fr") ]) ])
  = Ok [ NO_LANGUAGE ].
Proof. reflexivity. Qed.

(** The comment of [getLanguageId] gives 'fr' for a language that is a
    single object; the object has no [forEach]. *)
Example getLanguageId_object_language :
  getLanguageId
    (VObj 10 [ ("language",
                VObj 11 [ ("id", VStr "http://vocab.getty.edu/language/en") ]) ])
    (VObj 12 [ ("lookupMap", VObj 13 [ ("en", VStr "fr") ]) ])
  = Throw TypeError.
Proof. reflexivity. Qed.

Example getLanguageId_array_of_objects :
  getLanguageId
    (VObj 10 [ ("language",
                VArr 11 [ VObj 12 [ ("id", VStr "http://vocab.getty.edu/language/en") ] ]) ])
    (VObj 13 [ ("lookupMap", VObj 14 [ ("en", VStr "fr") ]) ])
  = Ok [ VStr "fr" ].
Proof. reflexivity. Qed.

Example doesObjectLanguageMatch_no_language :
  doesObjectLanguageMatch
    (VObj 10 [ ("id", VStr "1"); ("content", VStr "test") ]) (VStr "en")
    VUndefined
  = Ok true.
Proof. reflexivity. Qed.

Example doesObjectLanguageMatch_opt_out :
  doesObjectLanguageMatch
    (VObj 10 [ ("id", VStr "1"); ("content", VStr "test") ]) (VStr "en")
    (VObj 11 [ ("includeItemsWithNoLanguage", VBool false) ])
  = Ok false.
Proof. reflexivity. Qed.

Example doesObjectLanguageMatch_lookupMap :
  doesObjectLanguageMatch
    (VObj 10 [ ("id", VStr "1"); ("content", VStr "test");
               ("language", VStr "fr") ])
    (VStr "en")
    (VObj 11 [ ("lookupMap", VObj 12 [ ("fr", VStr "en") ]) ])
  = Ok true.
Proof. reflexivity. Qed.

Example doesObjectLanguageMatch_fallback :
  doesObjectLanguageMatch
    (VObj 10 [ ("id", VStr "1"); ("content", VStr "test");
               ("language", VStr "fr") ])
    (VStr "en")
    (VObj 11 [ ("fallbackLanguage", VStr "fr") ])
  = Ok true.
Proof. reflexivity. Qed.

(** ** Reading properties never fails on a value that is not nullish *)

Lemma get_member_returns (v : value) (k : string) :
  Js.eq_undefined v = false -> exists w, Js.get_member v k = Ok w.
Proof.
  destruct v; simpl; intros H; try discriminate; eauto;
    repeat match goal with
           | |- context [match ?x with _ => _ end] => destruct x
           end; eauto.
Qed.

Lemma truthy_not_undefined (v : value) :
  Js.truthy v = true -> Js.eq_undefined v = false.
Proof. destruct v; simpl; congruence. Qed.

Lemma get_member_Ok_not_undefined (v w : value) (k : string) :
  Js.get_member v k = Ok w -> Js.eq_undefined v = false.
Proof. destruct v; simpl; congruence. Qed.

(** ** normalizeLanguageId *)

Lemma active_lookupMap_returns (languageOptions : value) :
  exists m, active_lookupMap languageOptions = Ok m /\ Js.truthy m = true.
Proof.
  unfold active_lookupMap.
  destruct (Js.truthy languageOptions) eqn:Ht.
  - destruct (get_member_returns languageOptions "lookupMap"
                (truthy_not_undefined _ Ht)) as [custom ->].
    simpl. destruct (Js.truthy custom) eqn:Hc; eauto.
  - eauto.
Qed.

Lemma active_lookupMap_custom (languageOptions custom : value) :
  Js.truthy languageOptions = true ->
  Js.get_member languageOptions "lookupMap" = Ok custom ->
  Js.truthy custom = true ->
  active_lookupMap languageOptions = Ok custom.
Proof.
  intros Ht Hg Hc. unfold active_lookupMap. rewrite Ht, Hg. simpl.
  now rewrite Hc.
Qed.

(** An identifier that is a string is never rejected. *)
Lemma normalizeLanguageId_string (x : string) (languageOptions : value) :
  exists v, normalizeLanguageId (VStr x) languageOptions = Ok v.
Proof.
  unfold normalizeLanguageId. simpl.
  destruct (active_lookupMap_returns languageOptions) as (m & -> & Hm).
  simpl.
  destruct (get_member_returns m (simplify (Str.toLowerCase x))
              (truthy_not_undefined _ Hm)) as [w ->].
  simpl. destruct (Js.eq_undefined w); simpl; eauto.
Qed.

(** The identity fallback: when the map in force is an object that has the
    simplified key neither as an own property nor through its prototype,
    the raw identifier comes back. *)
Lemma normalizeLanguageId_unmapped
      (x : string) (languageOptions : value) (a : loc)
      (fields : list (string * value)) :
  active_lookupMap languageOptions = Ok (VObj a fields) ->
  Js.own fields (simplify (Str.toLowerCase x)) = None ->
  Js.inherited (simplify (Str.toLowerCase x)) = VUndefined ->
  normalizeLanguageId (VStr x) languageOptions = Ok (VStr x).
Proof.
  intros Hm Hown Hinh. unfold normalizeLanguageId. simpl.
  rewrite Hm. simpl. rewrite Hown, Hinh. reflexivity.
Qed.

(** The keys of the default table. *)
Lemma default_keys (k : string) :
  (exists w, Js.own [ ("en", VStr "http://vocab.getty.edu/aat/300388277");
                      ("es", VStr "http://vocab.getty.edu/aat/300389311");
                      ("fr", VStr "http://vocab.getty.edu/aat/300388306") ] k
             = Some w) ->
  k = "en" \/ k = "es" \/ k = "fr".
Proof.
  intros [w H]. cbn [Js.own] in H.
  destruct (String.eqb_spec "fr" k) as [<-|]; auto.
  destruct (String.eqb_spec "es" k) as [<-|]; auto.
  destruct (String.eqb_spec "en" k) as [<-|]; auto.
  discriminate.
Qed.



(** C10. A null requested language matches every object under every
    options value, exactly as an undefined one does: the first test is a
    loose comparison with undefined. *)
Theorem null_language_matches_everything (object languageOptions : value) :
  doesObjectLanguageMatch object VNull languageOptions = Ok true
  /\ doesObjectLanguageMatch object VUndefined languageOptions = Ok true.
Proof. split; reflexivity. Qed.

Lemma lookupMap_truthy_options (languageOptions m : value) :
  Js.get_member languageOptions "lookupMap" = Ok m ->
  Js.truthy m = true ->
  Js.truthy languageOptions = true.
Proof.
  intros H Hm.
  destruct languageOptions; try reflexivity;
    vm_compute in H; inversion H; subst; discriminate.
Qed.

(** C7. A supplied lookup map replaces the default table, it is not merged
    with it: with a truthy [lookupMap] in the options the result is decided
    by what the supplied map holds under the simplified key, and by nothing
    else: the value it holds there, or the raw identifier when it holds
    none.  So an identifier that the supplied map maps comes back as the
    supplied map has it, also where the default table maps it otherwise, and
    an identifier whose key is in the default table but not in the supplied
    map comes back unchanged, where without options the default mapping is
    returned. *)
Theorem custom_lookupMap_replaces_default
        (x : string) (languageOptions m : value) :
  Js.get_member languageOptions "lookupMap" = Ok m ->
  Js.truthy m = true ->
  (forall v,
      Js.get_member m (simplify (Str.toLowerCase x)) = Ok v ->
      normalizeLanguageId (VStr x) languageOptions
      = Ok (if Js.eq_undefined v then VStr x else v))
  /\ (forall a fields v,
         m = VObj a fields ->
         Js.own fields (simplify (Str.toLowerCase x)) = Some v ->
         Js.eq_undefined v = false ->
         normalizeLanguageId (VStr x) languageOptions = Ok v)
  /\ (forall a fields,
         m = VObj a fields ->
         (exists canonical,
             Js.get_member DEFAULT_LANGUAGE_LOOKUP
                           (simplify (Str.toLowerCase x))
             = Ok (VStr canonical)) ->
         Js.own fields (simplify (Str.toLowerCase x)) = None ->
         normalizeLanguageId (VStr x) languageOptions = Ok (VStr x)
         /\ normalizeLanguageId (VStr x) VUndefined
            = Js.get_member DEFAULT_LANGUAGE_LOOKUP
                            (simplify (Str.toLowerCase x))).
Proof.
  intros Hmap Hm.
  pose proof (lookupMap_truthy_options _ _ Hmap Hm) as Ht.
  pose proof (active_lookupMap_custom _ _ Ht Hmap Hm) as Hactive.
  assert (Hdecided :
            forall v,
              Js.get_member m (simplify (Str.toLowerCase x)) = Ok v ->
              normalizeLanguageId (VStr x) languageOptions
              = Ok (if Js.eq_undefined v then VStr x else v)).
  { intros v Hv. unfold normalizeLanguageId.
    cbn [Js.eq_undefined Method.toLowerCase]. rewrite Hactive. cbn [bind].
    rewrite Hv. cbn [bind]. now destruct (Js.eq_undefined v). }
  split; [exact Hdecided|]. split.
  - intros a fields v -> Hown Hv.
    rewrite (Hdecided v); [now rewrite Hv|].
    cbn [Js.get_member]. now rewrite Hown.
  - intros a fields -> [canonical Hdef] Hown.
    assert (Hk : simplify (Str.toLowerCase x) = "en"
                 \/ simplify (Str.toLowerCase x) = "es"
                 \/ simplify (Str.toLowerCase x) = "fr").
    { apply default_keys. unfold DEFAULT_LANGUAGE_LOOKUP in Hdef.
      cbn [Js.get_member] in Hdef.
      destruct (Js.own _ (simplify (Str.toLowerCase x))) as [w|]; eauto.
      unfold Js.inherited in Hdef.
      destruct (existsb _ Js.object_prototype_keys); discriminate. }
    split.
    + rewrite (Hdecided VUndefined); [reflexivity|].
      cbn [Js.get_member]. rewrite Hown.
      destruct Hk as [-> | [-> | ->]]; reflexivity.
    + unfold normalizeLanguageId.
      cbn [Js.eq_undefined active_lookupMap Js.truthy bind Method.toLowerCase].
      rewrite Hdef. reflexivity.
Qed.

Lemma custom_lookupMap_replaces_default_witness :
  normalizeLanguageId (VStr "EN")
    (VObj 10 [ ("lookupMap", VObj 11 [ ("en", VStr "fr"); ("el", VStr "greek") ]) ])
  = Ok (VStr "fr")
  /\ normalizeLanguageId (VStr "es")
       (VObj 10 [ ("lookupMap", VObj 11 [ ("en", VStr "fr"); ("el", VStr "greek") ]) ])
     = Ok (VStr "es")
  /\ normalizeLanguageId (VStr "es") VUndefined
     = Js.get_member DEFAULT_LANGUAGE_LOOKUP "es".
Proof.
  split.
  - apply (proj1 (proj2 (custom_lookupMap_replaces_default
                           "EN"
                           (VObj 10 [ ("lookupMap",
                                       VObj 11 [ ("en", VStr "fr");
                                                 ("el", VStr "greek") ]) ])
                           (VObj 11 [ ("en", VStr "fr"); ("el", VStr "greek") ])
                           eq_refl eq_refl))
                 11 [ ("en", VStr "fr"); ("el", VStr "greek") ] (VStr "fr"));
      reflexivity.
  - apply (proj2 (proj2 (custom_lookupMap_replaces_default
                           "es"
                           (VObj 10 [ ("lookupMap",
                                       VObj 11 [ ("en", VStr "fr");
                                                 ("el", VStr "greek") ]) ])
                           (VObj 11 [ ("en", VStr "fr"); ("el", VStr "greek") ])
                           eq_refl eq_refl))
                 11 [ ("en", VStr "fr"); ("el", VStr "greek") ]).
    + reflexivity.
    + exists "http://vocab.getty.edu/aat/300389311". reflexivity.
    + reflexivity.
Defined.

(** C2. The identifier "constructor" is not a key of the default table, and
    lower-casing and simplifying leave it as it is; yet the lookup
    [lookupMap[lang]] finds the property every object inherits from
    [Object.prototype], and that value is returned in place of the
    identifier. *)
Theorem normalizeLanguageId_inherited_key :
  simplify (Str.toLowerCase "constructor") = "constructor"
  /\ Js.own [ ("en", VStr "http://vocab.getty.edu/aat/300388277");
              ("es", VStr "http://vocab.getty.edu/aat/300389311");
              ("fr", VStr "http://vocab.getty.edu/aat/300388306") ]
            "constructor" = None
  /\ active_lookupMap VUndefined = Ok DEFAULT_LANGUAGE_LOOKUP
  /\ normalizeLanguageId (VStr "constructor") VUndefined
     = Ok (VNative "Object.prototype.constructor")
  /\ normalizeLanguageId (VStr "constructor") VUndefined
     <> Ok (VStr "constructor").
Proof. repeat split; try reflexivity. discriminate. Qed.

(** C3. Two raw entries that differ only in case, or a code and a URL
    ending in that code, are distinct members of the [Set], and both
    normalize to the same canonical identifier: the list returned holds it
    twice. *)
Theorem getLanguageId_duplicates :
  getLanguageId (VObj 10 [ ("language", VArr 11 [ VStr "en"; VStr "EN" ]) ])
                VUndefined
  = Ok [ VStr "http://vocab.getty.edu/aat/300388277";
         VStr "http://vocab.getty.edu/aat/300388277" ]
  /\ getLanguageId
       (VObj 10 [ ("language",
                   VArr 11 [ VStr "en";
                             VStr "http://vocab.getty.edu/language/en" ]) ])
       VUndefined
     = Ok [ VStr "http://vocab.getty.edu/aat/300388277";
            VStr "http://vocab.getty.edu/aat/300388277" ]
  /\ ~ NoDup [ VStr "http://vocab.getty.edu/aat/300388277";
               VStr "http://vocab.getty.edu/aat/300388277" ].
Proof.
  split; [reflexivity|]. split; [reflexivity|].
  intros H. inversion H as [|? ? Hin _]; subst. apply Hin. now left.
Qed.

(** ** getLanguageId *)

Lemma set_add_nonempty (set : list value) (x : value) :
  Js.set_add set x <> [].
Proof.
  unfold Js.set_add. destruct (Js.includes set x) eqn:Hin.
  - destruct set; [discriminate | congruence].
  - destruct set; discriminate.
Qed.

Lemma add_language_returns (toReturn : list value) (lang : value) :
  exists toReturn',
    add_language toReturn lang = Ok toReturn'
    /\ (usable lang = true -> toReturn' <> [])
    /\ (usable lang = false -> toReturn' = toReturn)
    /\ (toReturn <> [] -> toReturn' <> []).
Proof.
  unfold add_language, usable.
  destruct (Js.eq_undefined lang) eqn:Hu; simpl.
  { eexists; split; [reflexivity|].
    repeat split; auto using set_add_nonempty; discriminate. }
  destruct (Js.is_string lang) eqn:Hs; simpl.
  { eexists; split; [reflexivity|].
    repeat split; auto using set_add_nonempty; discriminate. }
  destruct (get_member_returns lang "id" Hu) as [id ->]. simpl.
  destruct (Js.truthy id); eexists; (split; [reflexivity|]);
    repeat split; auto using set_add_nonempty; discriminate.
Qed.

Lemma each_add_language (elems toReturn : list value) :
  exists toReturn',
    Method.each add_language elems toReturn = Ok toReturn'
    /\ (forallb (fun e => negb (usable e)) elems = true ->
        toReturn' = toReturn)
    /\ (forallb (fun e => negb (usable e)) elems = false ->
        toReturn' <> [])
    /\ (toReturn <> [] -> toReturn' <> []).
Proof.
  revert toReturn. induction elems as [|e elems IH]; intros toReturn; simpl.
  - eexists; split; [reflexivity|]. repeat split; auto; discriminate.
  - destruct (add_language_returns toReturn e) as (st & -> & Hyes & Hno & Hkeep).
    simpl. destruct (IH st) as (st' & -> & Hall & Hsome & Hkeep').
    eexists; split; [reflexivity|].
    destruct (usable e); simpl.
    + repeat split; auto; discriminate.
    + rewrite <- (Hno eq_refl). repeat split; auto.
Qed.

Lemma array_map_length {A B : Type} (f : A -> result B) (l : list A)
      (l' : list B) :
  Js.array_map f l = Ok l' -> List.length l' = List.length l.
Proof.
  revert l'. induction l as [|x l IH]; simpl; intros l' H.
  - now inversion H.
  - destruct (f x); simpl in H; [|discriminate].
    destruct (Js.array_map f l); simpl in H; [|discriminate].
    inversion H; subst. simpl. f_equal. now apply IH.
Qed.

(** ** doesObjectLanguageMatch *)

(** C5, as the code has it.  When the requested language and the fallback
    language both fail and the extracted identifiers hold the sentinel or
    are empty, the answer is the negation of
    [includeItemsWithNoLanguage == false], a loose comparison: false, 0 and
    the empty string opt out, while undefined (also an absent key) and null
    do not. *)
Theorem no_language_rule
        (object language languageOptions : value) (lang_ids : list value)
        (wanted fallbackLanguage opt_out : value) :
  Js.eq_undefined language = false ->
  getLanguageId object (default_options languageOptions) = Ok lang_ids ->
  normalizeLanguageId language (default_options languageOptions) = Ok wanted ->
  Js.includes lang_ids wanted = false ->
  Js.get_member (default_options languageOptions) "fallbackLanguage"
  = Ok fallbackLanguage ->
  (Js.eq_undefined fallbackLanguage = true
   \/ exists fallback,
        normalizeLanguageId fallbackLanguage (default_options languageOptions)
        = Ok fallback
        /\ Js.includes lang_ids fallback = false) ->
  (Js.includes lang_ids NO_LANGUAGE = true \/ lang_ids = []) ->
  Js.get_member (default_options languageOptions) "includeItemsWithNoLanguage"
  = Ok opt_out ->
  doesObjectLanguageMatch object language languageOptions
  = (excluded <- Js.eq_false opt_out ;; Ok (negb excluded))
  /\ Js.eq_false (VBool false) = Ok true
  /\ Js.eq_false (VNum 0) = Ok true
  /\ Js.eq_false (VStr "") = Ok true
  /\ Js.eq_false VUndefined = Ok false
  /\ Js.eq_false VNull = Ok false
  /\ Js.get_member (VObj 1 []) "includeItemsWithNoLanguage" = Ok VUndefined.
Proof.
  intros Hlang Hids Hwanted Hprimary Hfb Hfallback Hnone Hopt.
  split; [|repeat split].
  unfold doesObjectLanguageMatch. cbv zeta.
  rewrite Hlang, Hids. cbn [bind]. rewrite Hwanted. cbn [bind].
  rewrite Hprimary, Hfb. cbn [bind].
  assert (Hno : Js.includes lang_ids NO_LANGUAGE
                || (List.length lang_ids =? 0)%nat = true).
  { destruct Hnone as [-> | ->]; [reflexivity | apply orb_true_r]. }
  destruct Hfallback as [Hu | (fallback & Hn & Hi)].
  - rewrite Hu. cbn [negb bind]. rewrite Hno, Hopt. cbn [bind].
    destruct (Js.eq_false opt_out) as [[|]|]; reflexivity.
  - destruct (Js.eq_undefined fallbackLanguage); cbn [negb bind].
    + rewrite Hno, Hopt. cbn [bind].
      destruct (Js.eq_false opt_out) as [[|]|]; reflexivity.
    + rewrite Hn. cbn [bind]. rewrite Hi, Hno, Hopt. cbn [bind].
      destruct (Js.eq_false opt_out) as [[|]|]; reflexivity.
Qed.

Lemma no_language_rule_witness :
  doesObjectLanguageMatch
    (VObj 10 [ ("content", VStr "test") ]) (VStr "en")
    (VObj 11 [ ("includeItemsWithNoLanguage", VStr "") ])
  = Ok false.
Proof.
  apply (no_language_rule
           (VObj 10 [ ("content", VStr "test") ]) (VStr "en")
           (VObj 11 [ ("includeItemsWithNoLanguage", VStr "") ])
           [NO_LANGUAGE] (VStr "http://vocab.getty.edu/aat/300388277")
           VUndefined (VStr "")).
  - reflexivity.
  - reflexivity.
  - reflexivity.
  - reflexivity.
  - reflexivity.
  - left. reflexivity.
  - left. reflexivity.
  - reflexivity.
Defined.

(** The claim of C5 fails at 0: the fragment has no language, neither the
    requested nor a fallback language matches, the option is falsy and is
    not the boolean false, and the fragment is excluded. *)
Lemma no_language_rule_zero_opts_out :
  getLanguageId (VObj 10 [ ("content", VStr "test") ])
                (VObj 11 [ ("includeItemsWithNoLanguage", VNum 0) ])
  = Ok [NO_LANGUAGE]
  /\ Js.truthy (VNum 0) = false
  /\ doesObjectLanguageMatch
       (VObj 10 [ ("content", VStr "test") ]) (VStr "en")
       (VObj 11 [ ("includeItemsWithNoLanguage", VNum 0) ])
     = Ok false.
Proof. repeat split. Qed.

(** ** Inputs on which the helpers return *)

Lemma normalizeLanguageId_returns_iff (lang_id languageOptions : value) :
  returns (normalizeLanguageId lang_id languageOptions)
  <-> absent_or_string lang_id = true.
Proof.
  unfold normalizeLanguageId, absent_or_string.
  destruct (Js.eq_undefined lang_id) eqn:Hu; simpl; [tauto|].
  destruct (active_lookupMap_returns languageOptions) as (m & -> & Hm).
  cbn [bind].
  destruct lang_id; simpl; try (split; [tauto | discriminate]).
  destruct (get_member_returns m (simplify (Str.toLowerCase s))
              (truthy_not_undefined _ Hm)) as [w ->].
  cbn [bind]. destruct (Js.eq_undefined w); simpl; tauto.
Qed.

Lemma returns_Ok {A : Type} (r : result A) :
  returns r -> exists a, r = Ok a.
Proof. destruct r; simpl; [eauto | tauto]. Qed.

Lemma set_add_strings (set : list value) (x : value) :
  forallb Js.is_string set = true -> Js.is_string x = true ->
  forallb Js.is_string (Js.set_add set x) = true.
Proof.
  intros Hs Hx. unfold Js.set_add. destruct (Js.includes set x); auto.
  rewrite forallb_app, Hs. simpl. now rewrite Hx.
Qed.

Lemma add_language_strings (toReturn : list value) (lang : value) :
  forallb Js.is_string toReturn = true ->
  well_formed_entry lang = true ->
  exists toReturn',
    add_language toReturn lang = Ok toReturn'
    /\ forallb Js.is_string toReturn' = true.
Proof.
  intros Hs Hwf. unfold add_language.
  unfold well_formed_entry, absent_or_string in Hwf.
  destruct (Js.eq_undefined lang) eqn:Hu.
  { eexists; split; [reflexivity|]. now apply set_add_strings. }
  destruct (Js.is_string lang) eqn:Hstr.
  { eexists; split; [reflexivity|]. now apply set_add_strings. }
  simpl in Hwf.
  destruct (Js.get_member lang "id") as [id|]; [|discriminate]. cbn [bind].
  destruct (Js.truthy id); simpl in Hwf.
  - eexists; split; [reflexivity|]. now apply set_add_strings.
  - eauto.
Qed.

Lemma each_add_language_strings (elems toReturn : list value) :
  forallb Js.is_string toReturn = true ->
  forallb well_formed_entry elems = true ->
  exists toReturn',
    Method.each add_language elems toReturn = Ok toReturn'
    /\ forallb Js.is_string toReturn' = true.
Proof.
  revert toReturn. induction elems as [|e elems IH]; intros toReturn Hs Hwf.
  - simpl. eauto.
  - simpl in Hwf. apply andb_true_iff in Hwf as [He Hrest].
    destruct (add_language_strings toReturn e Hs He) as (st & Hst & Hstr).
    simpl. rewrite Hst. cbn [bind]. now apply IH.
Qed.

Lemma array_map_normalize_strings (items : list value) (languageOptions : value) :
  forallb Js.is_string items = true ->
  returns (Js.array_map (fun item => normalizeLanguageId item languageOptions)
                        items).
Proof.
  induction items as [|x items IH]; simpl; [tauto|].
  intros H. apply andb_true_iff in H as [Hx Hrest].
  destruct x; try discriminate.
  destruct (normalizeLanguageId_string s languageOptions) as [v ->].
  cbn [bind]. specialize (IH Hrest).
  destruct (Js.array_map _ items); simpl in *; tauto.
Qed.

Lemma getLanguageId_returns (obj languageOptions : value) :
  well_formed_fragment obj = true ->
  returns (getLanguageId obj languageOptions).
Proof.
  unfold well_formed_fragment, getLanguageId.
  destruct (Js.eq_undefined obj) eqn:Hobj; simpl; [tauto|].
  destruct (Js.get_member obj "language") as [language|]; [|discriminate].
  cbn [bind]. unfold absent_or_string.
  destruct language; simpl; try tauto; try discriminate.
  - intros _. destruct (normalizeLanguageId_string s languageOptions) as [v ->].
    simpl. tauto.
  - intros Hwf.
    destruct (each_add_language_strings elems [] eq_refl Hwf) as (st & -> & Hs).
    cbn [bind]. now apply array_map_normalize_strings.
Qed.

(** ** The result of getLanguageId *)

(** C4, as the code has it.  Without a fragment or without a language the
    result is the sentinel alone; a string language gives one identifier; an
    array language gives the empty list when no entry is usable, as for the
    empty array, and a non-empty list otherwise. *)
Theorem getLanguageId_shape (obj languageOptions : value) :
  (Js.eq_undefined obj = true ->
   getLanguageId obj languageOptions = Ok [NO_LANGUAGE])
  /\ (forall language,
         Js.get_member obj "language" = Ok language ->
         (Js.eq_undefined language = true ->
          getLanguageId obj languageOptions = Ok [NO_LANGUAGE])
         /\ (forall s, language = VStr s ->
               exists id, getLanguageId obj languageOptions = Ok [id])
         /\ (forall a elems,
               language = VArr a elems ->
               forallb (fun e => negb (usable e)) elems = true ->
               getLanguageId obj languageOptions = Ok [])
         /\ (forall a elems,
               language = VArr a elems ->
               forallb (fun e => negb (usable e)) elems = false ->
               (forall ids,
                   getLanguageId obj languageOptions = Ok ids -> ids <> [])
               /\ (forallb well_formed_entry elems = true ->
                   exists ids,
                     getLanguageId obj languageOptions = Ok ids
                     /\ ids <> []))).
Proof.
  assert (Hne : forall a elems ids,
             Js.get_member obj "language" = Ok (VArr a elems) ->
             forallb (fun e => negb (usable e)) elems = false ->
             getLanguageId obj languageOptions = Ok ids -> ids <> []).
  { intros a elems ids Hl Hsome.
    pose proof (get_member_Ok_not_undefined _ _ _ Hl) as Hobj.
    unfold getLanguageId. rewrite Hobj, Hl.
    cbn [bind Js.eq_undefined Js.is_string Method.forEach].
    destruct (each_add_language elems []) as (st & -> & _ & Hst & _).
    cbn [bind]. intros Hmap Hids. subst ids.
    apply array_map_length in Hmap.
    specialize (Hst Hsome). destruct st; [congruence | discriminate]. }
  split.
  { intros H. unfold getLanguageId. now rewrite H. }
  intros language Hl.
  pose proof (get_member_Ok_not_undefined _ _ _ Hl) as Hobj.
  repeat split.
  - intros Hu. unfold getLanguageId. now rewrite Hobj, Hl; cbn [bind]; rewrite Hu.
  - intros s ->. unfold getLanguageId. rewrite Hobj, Hl.
    cbn [bind Js.eq_undefined Js.is_string].
    destruct (normalizeLanguageId_string s languageOptions) as [v ->].
    now exists v.
  - intros a elems -> Hall. unfold getLanguageId. rewrite Hobj, Hl.
    cbn [bind Js.eq_undefined Js.is_string Method.forEach].
    destruct (each_add_language elems []) as (st & -> & Hempty & _).
    rewrite (Hempty Hall). reflexivity.
  - intros ids Hids. subst language. eapply Hne; eauto.
  - intros Hwf. subst language.
    assert (Hfrag : well_formed_fragment obj = true).
    { unfold well_formed_fragment. rewrite Hl. rewrite Hwf. apply orb_true_r. }
    destruct (returns_Ok _ (getLanguageId_returns obj languageOptions Hfrag))
      as [ids Hids].
    exists ids. split; [exact Hids|]. eapply Hne; eauto.
Qed.

Lemma getLanguageId_shape_witness :
  getLanguageId VUndefined VUndefined = Ok [NO_LANGUAGE]
  /\ getLanguageId (VObj 10 [ ("language", VArr 11 [ VObj 12 [] ]) ]) VUndefined
     = Ok [].
Proof.
  split.
  - apply (proj1 (getLanguageId_shape VUndefined VUndefined)). reflexivity.
  - destruct (proj2 (getLanguageId_shape
                       (VObj 10 [ ("language", VArr 11 [ VObj 12 [] ]) ])
                       VUndefined)
                    (VArr 11 [ VObj 12 [] ]) eq_refl) as (_ & _ & Hempty & _).
    apply (Hempty 11 [ VObj 12 [] ]); reflexivity.
Defined.

(** The claim of C4 fails on the empty language array. *)
Lemma getLanguageId_empty_array :
  getLanguageId (VObj 10 [ ("language", VArr 11 []) ]) VUndefined = Ok [].
Proof. reflexivity. Qed.

(** ** No exception on well-formed input *)

Lemma primitive_eq_false (v : value) :
  primitive v = true -> exists b, Js.eq_false v = Ok b.
Proof. destruct v; simpl; try discriminate; eauto. Qed.

(** C6, as the code has it.  [normalizeLanguageId] returns exactly when the
    identifier is a string, undefined or null, and throws a TypeError on any
    other value; [getLanguageId] returns on a well-formed fragment, and
    [doesObjectLanguageMatch] returns on a well-formed fragment, a requested
    language that is a string or absent, and well-formed options. *)
Theorem helpers_return_on_well_formed_input :
  (forall lang_id languageOptions,
      returns (normalizeLanguageId lang_id languageOptions)
      <-> absent_or_string lang_id = true)
  /\ (forall obj languageOptions,
         well_formed_fragment obj = true ->
         returns (getLanguageId obj languageOptions))
  /\ (forall object language languageOptions,
         well_formed_fragment object = true ->
         absent_or_string language = true ->
         well_formed_options languageOptions = true ->
         returns (doesObjectLanguageMatch object language languageOptions)).
Proof.
  split; [exact normalizeLanguageId_returns_iff|].
  split; [exact getLanguageId_returns|].
  intros object language languageOptions Hfrag Hlang Hopts.
  unfold doesObjectLanguageMatch. cbv zeta.
  destruct (Js.eq_undefined language) eqn:Hu; [exact I|].
  destruct (returns_Ok _ (getLanguageId_returns
                            object (default_options languageOptions) Hfrag))
    as [lang_ids ->].
  cbn [bind].
  destruct (returns_Ok _ (proj2 (normalizeLanguageId_returns_iff
                                   language (default_options languageOptions))
                                Hlang)) as [wanted ->].
  cbn [bind].
  destruct (Js.includes lang_ids wanted); [exact I|].
  unfold well_formed_options in Hopts.
  assert (Hgets :
            exists fallbackLanguage opt_out,
              Js.get_member (default_options languageOptions) "fallbackLanguage"
              = Ok fallbackLanguage
              /\ Js.get_member (default_options languageOptions)
                               "includeItemsWithNoLanguage" = Ok opt_out
              /\ absent_or_string fallbackLanguage = true
              /\ primitive opt_out = true).
  { destruct (Js.get_member (default_options languageOptions) "fallbackLanguage")
      as [fb|];
      [destruct (Js.get_member (default_options languageOptions)
                               "includeItemsWithNoLanguage") as [oo|] |].
    - exists fb, oo.
      destruct languageOptions; try discriminate;
        apply andb_true_iff in Hopts as [? ?]; auto.
    - destruct languageOptions; discriminate.
    - destruct languageOptions; discriminate. }
  destruct Hgets as (fb & oo & -> & Hoo & Hfb & Hprim).
  cbn [bind].
  destruct (primitive_eq_false oo Hprim) as [excluded Hex].
  assert (Hend :
            returns (if Js.includes lang_ids NO_LANGUAGE
                        || (List.length lang_ids =? 0)%nat
                     then opt_out <- Js.get_member
                                       (default_options languageOptions)
                                       "includeItemsWithNoLanguage" ;;
                          excluded <- Js.eq_false opt_out ;;
                          (if excluded then Ok false else Ok true)
                     else Ok false)).
  { destruct (Js.includes lang_ids NO_LANGUAGE
              || (List.length lang_ids =? 0)%nat); [|exact I].
    rewrite Hoo. cbn [bind]. rewrite Hex. cbn [bind].
    destruct excluded; exact I. }
  destruct (Js.eq_undefined fb) eqn:Hfbu; cbn [negb bind]; [exact Hend|].
  destruct (returns_Ok _ (proj2 (normalizeLanguageId_returns_iff
                                   fb (default_options languageOptions))
                                Hfb)) as [fallback ->].
  cbn [bind]. destruct (Js.includes lang_ids fallback); [exact I | exact Hend].
Qed.

Lemma helpers_return_on_well_formed_input_witness :
  returns (normalizeLanguageId (VStr "EN") VUndefined)
  /\ returns (getLanguageId
                (VObj 10 [ ("language",
                            VArr 11 [ VStr "en"; VNull;
                                      VObj 12 [ ("id", VStr "fr") ] ]) ])
                VUndefined)
  /\ returns (doesObjectLanguageMatch
                (VObj 10 [ ("language", VStr "fr") ]) (VStr "en")
                (VObj 11 [ ("fallbackLanguage", VStr "es") ])).
Proof.
  destruct helpers_return_on_well_formed_input as (Hnorm & Hget & Hmatch).
  split; [apply Hnorm; reflexivity|].
  split; [apply Hget; reflexivity|].
  apply Hmatch; reflexivity.
Defined.

(** The claim of C6 fails on a language identifier that is a number and on
    a language attribute that is a number: each helper throws. *)
Lemma helpers_throw_on_number :
  normalizeLanguageId (VNum 5) VUndefined = Throw TypeError
  /\ getLanguageId (VObj 10 [ ("language", VNum 5) ]) VUndefined
     = Throw TypeError
  /\ doesObjectLanguageMatch (VObj 10 [ ("language", VNum 5) ]) (VStr "en")
                             (VObj 11 [])
     = Throw TypeError.
Proof. repeat split. Qed.

(** ** getSubfieldInsidePart and getCarriedOutBy *)

Lemma collect_parts (innerKey : string) (parts found : list value) :
  fold_left (fun found part => (found ++ hits innerKey part)%list) parts found
  = (found ++ flat_map (hits innerKey) parts)%list.
Proof.
  revert found. induction parts as [|part parts IH]; intros found; simpl.
  - now rewrite app_nil_r.
  - rewrite IH. now rewrite <- app_assoc.
Qed.

(** C9.  Without the outer key the result is the empty list.  With it, the
    result is flat and ordered: first what the inner key holds directly
    under the outer key, then what it holds in each element of [part], in
    the order of the parts, where a held array stands for its elements, one
    by one, a held value that is no array for itself, and an absent value
    for nothing.  [getCarriedOutBy] is the instance for produced_by and
    carried_out_by: the examples of the specification evaluate as stated,
    and a production that has performers of its own and parts lists its own
    first and spreads the arrays. *)
Theorem getSubfieldInsidePart_direct_then_parts :
  let spread := fun v : value =>
                  match v with
                  | VArr _ elems => elems
                  | VUndefined | VNull => []
                  | _ => [v]
                  end in
  (forall object outerKey innerKey,
      Js.eq_undefined (field object outerKey) = true ->
      getSubfieldInsidePart object outerKey innerKey = [])
  /\ (forall object outerKey innerKey,
         Js.eq_undefined (field object outerKey) = false ->
         getSubfieldInsidePart object outerKey innerKey
         = (spread (field (field object outerKey) innerKey)
            ++ flat_map (fun part => spread (field part innerKey))
                        (spread (field (field object outerKey) "part")))%list)
  /\ (forall object,
         getCarriedOutBy object
         = getSubfieldInsidePart object "produced_by" "carried_out_by")
  /\ (forall a b c d e,
         getCarriedOutBy
           (VObj a [ ("produced_by",
                      VObj b [ ("part",
                                VArr c [ VObj d [ ("carried_out_by",
                                                   VObj e [ ("id", VNum 123) ])
                                                ] ]) ]) ])
         = [ VObj e [ ("id", VNum 123) ] ])
  /\ (forall a, getCarriedOutBy (VObj a []) = [])
  /\ (forall a b c d e f g h p1 p2 p3 p4 p5,
         getCarriedOutBy
           (VObj a
              [ ("produced_by",
                 VObj b
                   [ ("part",
                      VArr c
                        [ VObj d [ ("carried_out_by", VObj p3 [ ("id", VNum 3) ]) ];
                          VObj e [ ("timespan", VStr "1900") ];
                          VObj f [ ("carried_out_by",
                                    VArr g [ VObj p4 [ ("id", VNum 4) ];
                                             VObj p5 [ ("id", VNum 5) ] ]) ] ]);
                     ("carried_out_by",
                      VArr h [ VObj p1 [ ("id", VNum 1) ];
                               VObj p2 [ ("id", VNum 2) ] ]) ]) ])
         = [ VObj p1 [ ("id", VNum 1) ]; VObj p2 [ ("id", VNum 2) ];
             VObj p3 [ ("id", VNum 3) ];
             VObj p4 [ ("id", VNum 4) ]; VObj p5 [ ("id", VNum 5) ] ]).
Proof.
  cbv zeta. split; [|split; [|repeat split]].
  - intros object outerKey innerKey H. unfold getSubfieldInsidePart.
    now rewrite H.
  - intros object outerKey innerKey H. unfold getSubfieldInsidePart.
    rewrite H. rewrite collect_parts. reflexivity.
Qed.

Lemma getSubfieldInsidePart_direct_then_parts_witness :
  getSubfieldInsidePart
    (VObj 10 [ ("produced_by",
                VObj 11 [ ("carried_out_by", VObj 12 [ ("id", VNum 7) ]);
                          ("part",
                           VArr 13 [ VObj 14 [ ("carried_out_by",
                                                VArr 15 [ VStr "x"; VStr "y" ])
                                             ] ]) ]) ])
    "produced_by" "carried_out_by"
  = [ VObj 12 [ ("id", VNum 7) ]; VStr "x"; VStr "y" ]
  /\ getSubfieldInsidePart (VObj 10 [ ("created_by", VObj 11 []) ])
                           "produced_by" "carried_out_by"
     = [].
Proof.
  pose proof getSubfieldInsidePart_direct_then_parts as H. cbv zeta in H.
  destruct H as (Habsent & Hpresent & _).
  split.
  - apply (Hpresent
             (VObj 10 [ ("produced_by",
                         VObj 11 [ ("carried_out_by",
                                    VObj 12 [ ("id", VNum 7) ]);
                                   ("part",
                                    VArr 13 [ VObj 14 [ ("carried_out_by",
                                                         VArr 15 [ VStr "x";
                                                                   VStr "y" ])
                                                      ] ]) ]) ])
             "produced_by" "carried_out_by").
    reflexivity.
  - apply Habsent. reflexivity.
Defined.

(** ** The classification filter *)

Section ClassificationProperties.

Variable normalizeAatId : string -> string.

Lemma id_matches_requested (i : string) (ref : value) (rest : list string) :
  classification_id ref = Some i ->
  id_matches normalizeAatId (normalizeAatId i :: rest) ref = true.
Proof.
  intros H. unfold id_matches. rewrite H. simpl.
  now rewrite String.eqb_refl.
Qed.

Lemma id_matches_other (i j : string) (ref : value) :
  classification_id ref = Some i ->
  normalizeAatId j <> normalizeAatId i ->
  id_matches normalizeAatId [normalizeAatId j] ref = false.
Proof.
  intros H Hne. unfold id_matches. rewrite H. simpl.
  rewrite orb_false_r. apply String.eqb_neq. congruence.
Qed.

Lemma classification_id_carries (ref : value) (i : string) :
  classification_id ref = Some i
  <-> ref = VStr i
      \/ exists a fields, ref = VObj a fields /\ field ref "id" = VStr i.
Proof.
  split.
  - destruct ref; simpl; try discriminate.
    + intros H. inversion H. now left.
    + intros H. right. exists a, fields. split; [reflexivity|].
      destruct (Js.own fields "id") as [[]|]; try discriminate.
      now inversion H.
  - intros [-> | (a & fields & -> & H)]; [reflexivity|].
    unfold classification_id. now rewrite H.
Qed.

Lemma requested_ids_In (l : list value) (w : string) :
  In w (requested_ids normalizeAatId l)
  <-> exists s, In (VStr s) l /\ w = normalizeAatId s.
Proof.
  induction l as [|v l IH]; simpl.
  - split; [tauto | intros (s & [] & _)].
  - destruct v; simpl; rewrite ?IH;
      try (split; [intros (s & Hs & Hw); eauto
                  | intros (s & [Hs | Hs] & Hw); [discriminate | eauto]]).
    split.
    + intros [<- | (s' & Hs & Hw)]; eauto.
    + intros (s' & [Hs | Hs] & Hw); [inversion Hs; subst; auto | eauto].
Qed.

Lemma id_matches_In (wanted : list string) (ref : value) :
  id_matches normalizeAatId wanted ref = true
  <-> exists i, classification_id ref = Some i
                /\ In (normalizeAatId i) wanted.
Proof.
  unfold id_matches. destruct (classification_id ref) as [i|].
  - rewrite existsb_exists. split.
    + intros (w & Hw & Heq). apply String.eqb_eq in Heq. subst. eauto.
    + intros (j & Hj & Hin). inversion Hj; subst.
      exists (normalizeAatId j). split; [exact Hin | apply String.eqb_refl].
  - split; [discriminate | intros (i & H & _); discriminate].
Qed.

Lemma filter_entries_pure (keep : value -> bool) (l : list value) :
  filter_entries (fun entry => Ok (keep entry)) l = Ok (filter keep l).
Proof.
  induction l as [|entry l IH]; simpl; [reflexivity|].
  rewrite IH. cbn [bind]. now destruct (keep entry).
Qed.

Lemma filter_entries_ext (f g : value -> result bool) (l : list value) :
  (forall entry, f entry = g entry) ->
  filter_entries f l = filter_entries g l.
Proof.
  intros H. induction l as [|entry l IH]; simpl; [reflexivity|].
  now rewrite H, IH.
Qed.

End ClassificationProperties.

(** C8.  With no language requested, the filter keeps, in their order and
    as often as they occur, exactly the entries of which a classification
    carries a requested identifier, or of which a classification has itself
    a classification that carries one, identifiers being compared after
    normalization, and no others: one level of indirection, not more.  So
    of two entries classified as A and as B, filtering by "A" keeps the
    first and filtering by both keeps both; an entry classified as X, where
    X is classified as Y, is kept when filtering by "Y"; and an entry whose
    only line to Z is X, classified as Y, classified as Z, is dropped when
    filtering by "Z". *)
Theorem transitive_match_is_one_level (normalizeAatId : string -> string) :
  let spread := fun v : value =>
                  match v with
                  | VArr _ elems => elems
                  | VUndefined | VNull => []
                  | _ => [v]
                  end in
  let carries := fun (ref : value) (i : string) =>
                   ref = VStr i
                   \/ exists a fields,
                       ref = VObj a fields /\ field ref "id" = VStr i in
  (forall entries requestedIds languageOptions,
      exists keep : value -> bool,
        filterByClassification normalizeAatId entries requestedIds
                               VUndefined languageOptions
        = Ok (filter keep (spread entries))
        /\ forall entry,
            keep entry = true
            <-> exists ref i s,
                In ref (spread (field entry "classified_as"))
                /\ In (VStr s) (spread requestedIds)
                /\ normalizeAatId i = normalizeAatId s
                /\ (carries ref i
                    \/ exists ref',
                        In ref' (spread (field ref "classified_as"))
                        /\ carries ref' i))
  /\ (normalizeAatId "A" <> normalizeAatId "B" ->
      forall a b c d e f g,
        filterByClassification normalizeAatId
          (VArr a [ VObj b [ ("classified_as", VArr c [ VObj d [ ("id", VStr "A") ] ]) ];
                    VObj e [ ("classified_as", VArr f [ VObj g [ ("id", VStr "B") ] ]) ] ])
          (VStr "A") VUndefined VUndefined
        = Ok [ VObj b [ ("classified_as", VArr c [ VObj d [ ("id", VStr "A") ] ]) ] ]
        /\ forall h,
            filterByClassification normalizeAatId
              (VArr a [ VObj b [ ("classified_as", VArr c [ VObj d [ ("id", VStr "A") ] ]) ];
                        VObj e [ ("classified_as", VArr f [ VObj g [ ("id", VStr "B") ] ]) ] ])
              (VArr h [ VStr "A"; VStr "B" ]) VUndefined VUndefined
            = Ok [ VObj b [ ("classified_as", VArr c [ VObj d [ ("id", VStr "A") ] ]) ];
                   VObj e [ ("classified_as", VArr f [ VObj g [ ("id", VStr "B") ] ]) ] ])
  /\ (forall a b c d e f,
         filterByClassification normalizeAatId
           (VArr a [ VObj b [ ("classified_as",
               VArr c [ VObj d [ ("id", VStr "X");
                                 ("classified_as",
                                  VArr e [ VObj f [ ("id", VStr "Y") ] ]) ] ])
                            ] ])
           (VStr "Y") VUndefined VUndefined
         = Ok [ VObj b [ ("classified_as",
               VArr c [ VObj d [ ("id", VStr "X");
                                 ("classified_as",
                                  VArr e [ VObj f [ ("id", VStr "Y") ] ]) ] ])
                       ] ])
  /\ (normalizeAatId "Z" <> normalizeAatId "X" ->
      normalizeAatId "Z" <> normalizeAatId "Y" ->
      forall a b c d e f g h,
        filterByClassification normalizeAatId
          (VArr a [ VObj b [ ("classified_as",
              VArr c [ VObj d [ ("id", VStr "X");
                                ("classified_as",
                                 VArr e [ VObj f [ ("id", VStr "Y");
                                   ("classified_as",
                                    VArr g [ VObj h [ ("id", VStr "Z") ] ])
                                                  ] ]) ] ]) ] ])
          (VStr "Z") VUndefined VUndefined
        = Ok []).
Proof.
  cbv zeta. split; [|split; [|split]].
  - intros entries requestedIds languageOptions.
    set (wanted := requested_ids normalizeAatId (as_array requestedIds)).
    exists (matches_transitively normalizeAatId wanted).
    split.
    + unfold filterByClassification. fold wanted.
      rewrite (filter_entries_ext _
                 (fun entry => Ok (matches_transitively normalizeAatId
                                                        wanted entry))).
      * apply filter_entries_pure.
      * intros entry. now destruct (matches_transitively _ wanted entry).
    + intros entry. unfold matches_transitively. rewrite existsb_exists.
      assert (Hone : forall ref,
                 id_matches normalizeAatId wanted ref = true
                 <-> exists i s,
                     In (VStr s) (as_array requestedIds)
                     /\ normalizeAatId i = normalizeAatId s
                     /\ (ref = VStr i
                         \/ exists a fields,
                             ref = VObj a fields /\ field ref "id" = VStr i)).
      { intros ref. rewrite id_matches_In. split.
        - intros (i & Hi & Hin).
          apply requested_ids_In in Hin as (s & Hs & Heq).
          apply classification_id_carries in Hi. eauto 6.
        - intros (i & s & Hs & Heq & Hc).
          exists i. split; [now apply classification_id_carries|].
          apply requested_ids_In. eauto. }
      split.
      * intros (ref & Hin & H). apply orb_true_iff in H as [H | H].
        -- apply Hone in H as (i & s & Hs & Heq & Hc).
           exists ref, i, s. auto.
        -- apply existsb_exists in H as (ref' & Hin' & H').
           apply Hone in H' as (i & s & Hs & Heq & Hc).
           exists ref, i, s. repeat split; auto. right. eauto.
      * intros (ref & i & s & Hin & Hs & Heq & [Hc | (ref' & Hin' & Hc)]).
        -- exists ref. split; [exact Hin|]. apply orb_true_iff. left.
           apply Hone. eauto 6.
        -- exists ref. split; [exact Hin|]. apply orb_true_iff. right.
           apply existsb_exists. exists ref'. split; [exact Hin'|].
           apply Hone. eauto 6.
  - intros HAB a b c d e f g.
    assert (HBA : normalizeAatId "B" <> normalizeAatId "A") by congruence.
    split; [|intros h];
      unfold filterByClassification, matches_transitively;
      cbn [as_array requested_ids filter_entries classifications field Js.own
           String.eqb Ascii.eqb Bool.eqb existsb];
      unfold id_matches;
      cbn [classification_id field Js.own String.eqb Ascii.eqb Bool.eqb
           existsb];
      rewrite ?String.eqb_refl;
      rewrite ?(proj2 (String.eqb_neq _ _) HAB);
      rewrite ?(proj2 (String.eqb_neq _ _) HBA);
      reflexivity.
  - intros a b c d e f.
    unfold filterByClassification, matches_transitively.
    cbn [as_array requested_ids filter_entries classifications field Js.own
         String.eqb Ascii.eqb Bool.eqb existsb].
    rewrite (id_matches_requested normalizeAatId "Y"
               (VObj f [ ("id", VStr "Y") ]) [] eq_refl).
    cbn [orb]. rewrite orb_true_r. reflexivity.
  - intros HX HY a b c d e f g h.
    unfold filterByClassification, matches_transitively.
    cbn [as_array requested_ids filter_entries classifications field Js.own
         String.eqb Ascii.eqb Bool.eqb existsb].
    erewrite (id_matches_other normalizeAatId "X" "Z");
      [|reflexivity | exact HX].
    erewrite (id_matches_other normalizeAatId "Y" "Z");
      [|reflexivity | exact HY].
    reflexivity.
Qed.

Lemma transitive_match_is_one_level_witness :
  filterByClassification (fun id => id)
    (VArr 10 [ VObj 11 [ ("classified_as",
        VArr 12 [ VObj 13 [ ("id", VStr "X");
                            ("classified_as",
                             VArr 14 [ VObj 15 [ ("id", VStr "Y");
                               ("classified_as",
                                VArr 16 [ VObj 17 [ ("id", VStr "Z") ] ])
                                               ] ]) ] ]) ] ])
    (VStr "Z") VUndefined VUndefined
  = Ok []
  /\ filterByClassification (fun id => id)
       (VArr 10 [ VObj 11 [ ("classified_as", VArr 12 [ VObj 13 [ ("id", VStr "A") ] ]) ];
                  VObj 14 [ ("classified_as", VArr 15 [ VObj 16 [ ("id", VStr "B") ] ]) ] ])
       (VStr "A") VUndefined VUndefined
     = Ok [ VObj 11 [ ("classified_as", VArr 12 [ VObj 13 [ ("id", VStr "A") ] ]) ] ].
Proof.
  destruct (transitive_match_is_one_level (fun id => id))
    as (_ & Hdirect & _ & Hdeep).
  split.
  - apply Hdeep; discriminate.
  - apply Hdirect. discriminate.
Defined.

(** * Further properties of the language helpers *)

(** ** The key that is looked up *)

Lemma toLowerCase_app (a b : string) :
  Str.toLowerCase (a ++ b) = Str.toLowerCase a ++ Str.toLowerCase b.
Proof. induction a as [|c a IH]; simpl; [reflexivity | now rewrite IH]. Qed.

Lemma lower_char_alpha (c : ascii) :
  Str.is_alpha c = true -> Str.is_alpha (Str.lower_char c) = true.
Proof.
  destruct c as [[] [] [] [] [] [] [] []]; vm_compute; intros H;
    solve [reflexivity | discriminate].
Qed.

Lemma alpha_not_slash (c : ascii) :
  Str.is_alpha c = true -> Ascii.eqb c "/" = false.
Proof.
  destruct c as [[] [] [] [] [] [] [] []]; vm_compute; intros H;
    solve [reflexivity | discriminate].
Qed.

Lemma toLowerCase_alpha (t : string) :
  Str.all_alpha t = true -> Str.all_alpha (Str.toLowerCase t) = true.
Proof.
  induction t as [|c t IH]; simpl; [reflexivity|].
  intros H. apply andb_true_iff in H as [Hc Ht].
  now rewrite (lower_char_alpha c Hc), (IH Ht).
Qed.

Lemma toLowerCase_nonempty (t : string) :
  Str.nonempty (Str.toLowerCase t) = Str.nonempty t.
Proof. destruct t; reflexivity. Qed.

Lemma alpha_no_slash_token (t : string) :
  Str.all_alpha t = true -> Str.matches_slash_token t = false.
Proof.
  induction t as [|c t IH]; simpl; [reflexivity|].
  intros H. apply andb_true_iff in H as [Hc Ht].
  now rewrite (alpha_not_slash c Hc), (IH Ht).
Qed.

Lemma alpha_lastIndexOf (t : string) :
  Str.all_alpha t = true -> Str.lastIndexOf t "/" = (-1)%Z.
Proof.
  induction t as [|c t IH]; simpl; [reflexivity|].
  intros H. apply andb_true_iff in H as [Hc Ht].
  now rewrite (IH Ht), (alpha_not_slash c Hc).
Qed.

Lemma slash_token_matches (p t : string) :
  Str.nonempty t = true -> Str.all_alpha t = true ->
  Str.matches_slash_token (p ++ String "/" t) = true.
Proof.
  intros Hn Ha. induction p as [|c p IH]; simpl.
  - now rewrite Hn, Ha.
  - rewrite IH. apply orb_true_r.
Qed.

Lemma slash_token_lastIndexOf (p t : string) :
  Str.all_alpha t = true ->
  Str.lastIndexOf (p ++ String "/" t) "/" = Z.of_nat (String.length p).
Proof.
  intros Ha. induction p as [|c p IH].
  - simpl. now rewrite (alpha_lastIndexOf t Ha).
  - cbn [String.append Str.lastIndexOf String.length]. rewrite IH.
    destruct (0 <=? Z.of_nat (String.length p))%Z eqn:E; [lia|].
    apply Z.leb_gt in E. lia.
Qed.

Lemma drop_prefix (p t : string) :
  Str.drop (S (String.length p)) (p ++ String "/" t) = t.
Proof. induction p as [|c p IH]; simpl; [reflexivity | exact IH]. Qed.

(** An identifier that ends in a slash and letters is simplified to those
    letters; letters alone are left as they are. *)
Lemma simplify_slash_token (p t : string) :
  Str.nonempty t = true -> Str.all_alpha t = true ->
  simplify (p ++ String "/" t) = t.
Proof.
  intros Hn Ha. unfold simplify, Str.substring_from.
  rewrite (slash_token_matches p t Hn Ha), (slash_token_lastIndexOf p t Ha).
  replace (Z.to_nat (Z.of_nat (String.length p) + 1))
    with (S (String.length p)) by lia.
  apply drop_prefix.
Qed.

Lemma simplify_token (t : string) :
  Str.all_alpha t = true -> simplify t = t.
Proof. intros Ha. unfold simplify. now rewrite (alpha_no_slash_token t Ha). Qed.

Lemma key_of_url (prefix token : string) :
  Str.nonempty token = true -> Str.all_alpha token = true ->
  simplify (Str.toLowerCase (prefix ++ String "/" token))
  = Str.toLowerCase token.
Proof.
  intros Hn Ha. rewrite toLowerCase_app.
  change (Str.toLowerCase (String "/" token))
    with (String "/" (Str.toLowerCase token)).
  apply simplify_slash_token.
  - now rewrite toLowerCase_nonempty.
  - now apply toLowerCase_alpha.
Qed.

Lemma key_of_token (token : string) :
  Str.all_alpha token = true ->
  simplify (Str.toLowerCase token) = Str.toLowerCase token.
Proof. intros Ha. apply simplify_token. now apply toLowerCase_alpha. Qed.

(** The result of [normalizeLanguageId] on a string, given the map in force
    and what the map holds under the key. *)
Lemma normalizeLanguageId_by_key (x : string) (languageOptions m v : value) :
  active_lookupMap languageOptions = Ok m ->
  Js.get_member m (simplify (Str.toLowerCase x)) = Ok v ->
  normalizeLanguageId (VStr x) languageOptions
  = Ok (if Js.eq_undefined v then VStr x else v).
Proof.
  intros Hm Hv. unfold normalizeLanguageId.
  cbn [Js.eq_undefined Method.toLowerCase]. rewrite Hm. cbn [bind].
  rewrite Hv. cbn [bind]. now destruct (Js.eq_undefined v).
Qed.

(** X1. A vocabulary URL whose last path segment is a code, in any case,
    is looked up under the same key as the code itself: when the map in
    force holds a value under the lower-cased code, the URL and the code
    both normalize to that value, and otherwise each comes back as it was
    given. *)
Theorem url_and_code_normalize_alike
        (prefix token : string) (languageOptions m v : value) :
  Str.nonempty token = true ->
  Str.all_alpha token = true ->
  active_lookupMap languageOptions = Ok m ->
  Js.get_member m (Str.toLowerCase token) = Ok v ->
  normalizeLanguageId (VStr (prefix ++ String "/" token)) languageOptions
  = Ok (if Js.eq_undefined v then VStr (prefix ++ String "/" token) else v)
  /\ normalizeLanguageId (VStr token) languageOptions
     = Ok (if Js.eq_undefined v then VStr token else v).
Proof.
  intros Hn Ha Hm Hv. split.
  - apply (normalizeLanguageId_by_key _ _ m); [exact Hm|].
    now rewrite (key_of_url prefix token Hn Ha).
  - apply (normalizeLanguageId_by_key _ _ m); [exact Hm|].
    now rewrite (key_of_token token Ha).
Qed.

Lemma url_and_code_normalize_alike_witness :
  normalizeLanguageId (VStr "HTTP://vocab.getty.edu/language/FR") VUndefined
  = Ok (VStr "http://vocab.getty.edu/aat/300388306")
  /\ normalizeLanguageId (VStr "FR") VUndefined
     = Ok (VStr "http://vocab.getty.edu/aat/300388306").
Proof.
  apply (url_and_code_normalize_alike
           "HTTP://vocab.getty.edu/language" "FR" VUndefined
           DEFAULT_LANGUAGE_LOOKUP
           (VStr "http://vocab.getty.edu/aat/300388306"));
    reflexivity.
Defined.

(** ** What normalization returns *)

Lemma same_value_zero_refl (v : value) : Js.same_value_zero v v = true.
Proof.
  destruct v; simpl; auto using Z.eqb_refl, String.eqb_refl, Nat.eqb_refl.
  now destruct b.
Qed.

Lemma array_map_Forall2 {A B : Type} (f : A -> result B) (l : list A)
      (l' : list B) :
  Js.array_map f l = Ok l' <-> Forall2 (fun x y => f x = Ok y) l l'.
Proof.
  revert l'. induction l as [|x l IH]; intros l'; simpl.
  - split; intros H; [inversion H; constructor | inversion H; reflexivity].
  - split.
    + destruct (f x) as [y|] eqn:Hx; cbn [bind]; [|discriminate].
      destruct (Js.array_map f l) as [ys|] eqn:Hl; cbn [bind]; [|discriminate].
      intros H. inversion H; subst. constructor; [exact Hx | now apply IH].
    + intros H. inversion H as [|? y ? ys Hx Hrest]; subst.
      rewrite Hx. cbn [bind]. apply IH in Hrest. rewrite Hrest. reflexivity.
Qed.

Lemma Forall2_In_r {A B : Type} (R : A -> B -> Prop) (l : list A)
      (l' : list B) (y : B) :
  Forall2 R l l' -> In y l' -> exists x, In x l /\ R x y.
Proof.
  induction 1 as [|x y' l l' Hxy _ IH]; simpl; [tauto|].
  intros [<- | Hin]; [eauto|].
  destruct (IH Hin) as (x' & Hx' & HR). eauto.
Qed.

Lemma Forall2_In_l {A B : Type} (R : A -> B -> Prop) (l : list A)
      (l' : list B) (x : A) :
  Forall2 R l l' -> In x l -> exists y, In y l' /\ R x y.
Proof.
  induction 1 as [|x' y l l' Hxy _ IH]; simpl; [tauto|].
  intros [<- | Hin]; [eauto|].
  destruct (IH Hin) as (y' & Hy' & HR). eauto.
Qed.

Lemma normalizeLanguageId_not_undefined (lang_id languageOptions v : value) :
  normalizeLanguageId lang_id languageOptions = Ok v ->
  Js.eq_undefined v = false.
Proof.
  unfold normalizeLanguageId.
  destruct (Js.eq_undefined lang_id) eqn:Hu.
  { intros H. inversion H. reflexivity. }
  destruct (active_lookupMap languageOptions) as [m|]; cbn [bind];
    [|discriminate].
  destruct (Method.toLowerCase lang_id) as [lang|]; cbn [bind]; [|discriminate].
  destruct (Js.get_member m (simplify lang)) as [lookup|]; cbn [bind];
    [|discriminate].
  destruct (Js.eq_undefined lookup) eqn:Hl; cbn [negb]; intros H;
    inversion H; subst; assumption.
Qed.

(** X2. Neither helper hands out undefined or null: a value returned by
    [normalizeLanguageId] is never nullish, and no member of a list returned
    by [getLanguageId] is. *)
Theorem identifiers_are_never_nullish (languageOptions : value) :
  (forall lang_id v,
      normalizeLanguageId lang_id languageOptions = Ok v ->
      Js.eq_undefined v = false)
  /\ (forall obj ids v,
         getLanguageId obj languageOptions = Ok ids ->
         In v ids -> Js.eq_undefined v = false).
Proof.
  split.
  { intros lang_id v. apply normalizeLanguageId_not_undefined. }
  intros obj ids v. unfold getLanguageId.
  destruct (Js.eq_undefined obj).
  { intros H Hin. inversion H; subst. destruct Hin as [<- | []]. reflexivity. }
  destruct (Js.get_member obj "language") as [language|]; cbn [bind];
    [|discriminate].
  destruct (Js.eq_undefined language).
  { intros H Hin. inversion H; subst. destruct Hin as [<- | []]. reflexivity. }
  destruct (Js.is_string language).
  - destruct (normalizeLanguageId language languageOptions) as [id|] eqn:Hid;
      cbn [bind]; [|discriminate].
    intros H Hin. inversion H; subst. destruct Hin as [<- | []].
    eapply normalizeLanguageId_not_undefined; eauto.
  - destruct (Method.forEach language add_language []) as [st|]; cbn [bind];
      [|discriminate].
    intros H Hin. apply array_map_Forall2 in H.
    destruct (Forall2_In_r _ _ _ _ H Hin) as (x & _ & Hx).
    eapply normalizeLanguageId_not_undefined; eauto.
Qed.

Lemma identifiers_are_never_nullish_witness :
  Js.eq_undefined (VStr "xx") = false
  /\ Js.eq_undefined NO_LANGUAGE = false.
Proof.
  destruct (identifiers_are_never_nullish VUndefined) as [Hnorm Hget].
  split.
  - apply (Hnorm (VStr "xx")). reflexivity.
  - apply (Hget (VObj 10 [ ("language", VArr 11 [ VNull; VStr "en" ]) ])
                [ NO_LANGUAGE; VStr "http://vocab.getty.edu/aat/300388277" ]).
    + reflexivity.
    + left. reflexivity.
Defined.

(** X3. With the default table in force normalization is idempotent: a
    string that [normalizeLanguageId] returns normalizes to itself.  (The
    canonical identifiers of the table end in digits and are not keys of
    it.) *)
Theorem default_normalization_idempotent
        (x s : string) (languageOptions : value) :
  active_lookupMap languageOptions = Ok DEFAULT_LANGUAGE_LOOKUP ->
  normalizeLanguageId (VStr x) languageOptions = Ok (VStr s) ->
  normalizeLanguageId (VStr s) languageOptions = Ok (VStr s).
Proof.
  intros Hm H.
  destruct (get_member_returns DEFAULT_LANGUAGE_LOOKUP
              (simplify (Str.toLowerCase x)) eq_refl) as [w Hw].
  pose proof (normalizeLanguageId_by_key x languageOptions _ w Hm Hw) as Hx.
  rewrite Hx in H.
  assert (Hcanon : forall url,
             Js.get_member DEFAULT_LANGUAGE_LOOKUP
                           (simplify (Str.toLowerCase url)) = Ok VUndefined ->
             normalizeLanguageId (VStr url) languageOptions = Ok (VStr url)).
  { intros url Hu.
    now rewrite (normalizeLanguageId_by_key url languageOptions _ _ Hm Hu). }
  unfold DEFAULT_LANGUAGE_LOOKUP in Hw. cbn [Js.get_member] in Hw.
  destruct (Js.own _ (simplify (Str.toLowerCase x))) as [w0|] eqn:Hown.
  - destruct (default_keys _ (ex_intro _ w0 Hown)) as [Hk | [Hk | Hk]];
      rewrite Hk in Hown; vm_compute in Hown;
      inversion Hown; subst w0; inversion Hw; subst w;
      cbn [Js.eq_undefined] in H; inversion H; subst s;
      apply Hcanon; reflexivity.
  - unfold Js.inherited in Hw.
    destruct (existsb _ Js.object_prototype_keys);
      inversion Hw; subst w; cbn [Js.eq_undefined] in H; inversion H.
    subst s. rewrite Hx. reflexivity.
Qed.

Lemma default_normalization_idempotent_witness :
  normalizeLanguageId (VStr "http://vocab.getty.edu/aat/300388277") VUndefined
  = Ok (VStr "http://vocab.getty.edu/aat/300388277").
Proof.
  apply (default_normalization_idempotent "EN" _ VUndefined); reflexivity.
Defined.

(** Under a custom map normalization need not be idempotent. *)
Example custom_normalization_not_idempotent :
  normalizeLanguageId
    (VStr "en")
    (VObj 10 [ ("lookupMap",
                VObj 11 [ ("en", VStr "fr"); ("fr", VStr "de") ]) ])
  = Ok (VStr "fr")
  /\ normalizeLanguageId
       (VStr "fr")
       (VObj 10 [ ("lookupMap",
                   VObj 11 [ ("en", VStr "fr"); ("fr", VStr "de") ]) ])
     = Ok (VStr "de").
Proof. split; reflexivity. Qed.

(** ** The options are read through the lookup map only *)

Lemma normalizeLanguageId_same_map (o1 o2 lang_id : value) :
  active_lookupMap o1 = active_lookupMap o2 ->
  normalizeLanguageId lang_id o1 = normalizeLanguageId lang_id o2.
Proof. intros H. unfold normalizeLanguageId. now rewrite H. Qed.

Lemma array_map_ext {A B : Type} (f g : A -> result B) (l : list A) :
  (forall x, f x = g x) -> Js.array_map f l = Js.array_map g l.
Proof.
  intros H. induction l as [|x l IH]; simpl; [reflexivity|].
  now rewrite H, IH.
Qed.

Lemma getLanguageId_same_map (o1 o2 obj : value) :
  active_lookupMap o1 = active_lookupMap o2 ->
  getLanguageId obj o1 = getLanguageId obj o2.
Proof.
  intros H. unfold getLanguageId.
  destruct (Js.eq_undefined obj); [reflexivity|].
  destruct (Js.get_member obj "language") as [language|]; cbn [bind];
    [|reflexivity].
  destruct (Js.eq_undefined language); [reflexivity|].
  destruct (Js.is_string language).
  - now rewrite (normalizeLanguageId_same_map o1 o2 language H).
  - destruct (Method.forEach language add_language []); cbn [bind];
      [|reflexivity].
    apply array_map_ext. intros x. now apply normalizeLanguageId_same_map.
Qed.

Lemma active_lookupMap_by_members (o1 o2 : value) :
  Js.truthy o1 = true -> Js.truthy o2 = true ->
  Js.get_member o1 "lookupMap" = Js.get_member o2 "lookupMap" ->
  active_lookupMap o1 = active_lookupMap o2.
Proof. intros H1 H2 H. unfold active_lookupMap. now rewrite H1, H2, H. Qed.

(** X4. [getLanguageId] and [normalizeLanguageId] read nothing of the
    options but [lookupMap]: two truthy options values with the same
    [lookupMap], whatever their fallbackLanguage and
    includeItemsWithNoLanguage, give the same results, and options that are
    falsy or whose [lookupMap] is falsy give the results of no options at
    all. *)
Theorem only_lookupMap_is_read (obj lang_id : value) :
  (forall o1 o2,
      Js.truthy o1 = true -> Js.truthy o2 = true ->
      Js.get_member o1 "lookupMap" = Js.get_member o2 "lookupMap" ->
      normalizeLanguageId lang_id o1 = normalizeLanguageId lang_id o2
      /\ getLanguageId obj o1 = getLanguageId obj o2)
  /\ (forall languageOptions,
         (Js.truthy languageOptions = false
          \/ exists custom,
              Js.get_member languageOptions "lookupMap" = Ok custom
              /\ Js.truthy custom = false) ->
         normalizeLanguageId lang_id languageOptions
         = normalizeLanguageId lang_id VUndefined
         /\ getLanguageId obj languageOptions = getLanguageId obj VUndefined).
Proof.
  split.
  - intros o1 o2 H1 H2 H.
    pose proof (active_lookupMap_by_members o1 o2 H1 H2 H) as Hm.
    split; [now apply normalizeLanguageId_same_map
           | now apply getLanguageId_same_map].
  - intros languageOptions Hfalsy.
    assert (Hm : active_lookupMap languageOptions = active_lookupMap VUndefined).
    { unfold active_lookupMap at 1.
      destruct Hfalsy as [-> | (custom & Hc & Hf)]; [reflexivity|].
      destruct (Js.truthy languageOptions); [|reflexivity].
      rewrite Hc. cbn [bind]. now rewrite Hf. }
    split; [now apply normalizeLanguageId_same_map
           | now apply getLanguageId_same_map].
Qed.

Lemma only_lookupMap_is_read_witness :
  getLanguageId (VObj 10 [ ("language", VStr "fr") ])
                (VObj 11 [ ("fallbackLanguage", VStr "en") ])
  = getLanguageId (VObj 10 [ ("language", VStr "fr") ])
                  (VObj 12 [ ("includeItemsWithNoLanguage", VBool false) ])
  /\ getLanguageId (VObj 10 [ ("language", VStr "fr") ])
                   (VObj 13 [ ("lookupMap", VNull) ])
     = getLanguageId (VObj 10 [ ("language", VStr "fr") ]) VUndefined.
Proof.
  destruct (only_lookupMap_is_read (VObj 10 [ ("language", VStr "fr") ])
                                   (VStr "fr")) as [Hsame Hfalsy].
  split.
  - apply (Hsame (VObj 11 [ ("fallbackLanguage", VStr "en") ])
                 (VObj 12 [ ("includeItemsWithNoLanguage", VBool false) ]));
      reflexivity.
  - apply (Hfalsy (VObj 13 [ ("lookupMap", VNull) ])).
    right. exists VNull. split; reflexivity.
Defined.

(** ** The [Set] of raw identifiers *)

Lemma add_language_raw (toReturn : list value) (lang : value) :
  add_language toReturn lang
  = Ok match raw_id lang with
       | Some r => Js.set_add toReturn r
       | None => toReturn
       end.
Proof.
  unfold add_language, raw_id.
  destruct (Js.eq_undefined lang) eqn:Hu; [reflexivity|].
  destruct (Js.is_string lang); [reflexivity|].
  destruct (get_member_returns lang "id" Hu) as [id ->]. cbn [bind].
  now destruct (Js.truthy id).
Qed.

Lemma raw_id_not_undefined (lang r : value) :
  raw_id lang = Some r -> Js.eq_undefined r = false.
Proof.
  unfold raw_id. destruct (Js.eq_undefined lang) eqn:Hu.
  { intros H. inversion H. reflexivity. }
  destruct (Js.is_string lang).
  { intros H. inversion H. now subst. }
  destruct (Js.get_member lang "id") as [id|]; [|discriminate].
  destruct (Js.truthy id) eqn:Ht; [|discriminate].
  intros H. inversion H; subst. now apply truthy_not_undefined.
Qed.

Lemma includes_In (set : list value) (x : value) :
  In x set -> Js.includes set x = true.
Proof.
  intros H. apply existsb_exists. exists x. split; [exact H|].
  apply same_value_zero_refl.
Qed.

Lemma includes_mono (set set' : list value) (x : value) :
  (forall y, In y set -> In y set') ->
  Js.includes set x = true -> Js.includes set' x = true.
Proof.
  intros Hsub H. apply existsb_exists in H as (y & Hy & Hxy).
  apply existsb_exists. eauto.
Qed.

Lemma NoDup_snoc {A : Type} (l : list A) (x : A) :
  NoDup l -> ~ In x l -> NoDup (l ++ [x]).
Proof.
  induction 1 as [|y l Hy Hl IH]; simpl; intros Hx.
  - constructor; [tauto | constructor].
  - constructor.
    + rewrite in_app_iff. simpl. intros [H | [H | []]]; [tauto|].
      subst. tauto.
    + apply IH. tauto.
Qed.

Lemma set_add_spec (set : list value) (x : value) :
  (List.length (Js.set_add set x) <= S (List.length set))%nat
  /\ (forall y, In y set -> In y (Js.set_add set x))
  /\ (forall y, In y (Js.set_add set x) -> In y set \/ y = x)
  /\ Js.includes (Js.set_add set x) x = true
  /\ (NoDup set -> NoDup (Js.set_add set x)).
Proof.
  unfold Js.set_add. destruct (Js.includes set x) eqn:Hin.
  - repeat split; auto.
  - repeat split.
    + rewrite length_app. simpl. lia.
    + intros y Hy. apply in_or_app. now left.
    + intros y Hy. apply in_app_or in Hy as [Hy | [<- | []]]; auto.
    + apply includes_In. apply in_or_app. right. now left.
    + intros Hnd. apply NoDup_snoc; [exact Hnd|].
      intros Hx. apply includes_In in Hx. congruence.
Qed.

Lemma each_add_language_spec (elems toReturn : list value) :
  exists toReturn',
    Method.each add_language elems toReturn = Ok toReturn'
    /\ (List.length toReturn'
        <= List.length toReturn + List.length elems)%nat
    /\ (forall y, In y toReturn -> In y toReturn')
    /\ (forall r, In r toReturn' ->
                  In r toReturn
                  \/ exists e, In e elems /\ raw_id e = Some r)
    /\ (forall e r, In e elems -> raw_id e = Some r ->
                    Js.includes toReturn' r = true)
    /\ (NoDup toReturn -> NoDup toReturn').
Proof.
  revert toReturn. induction elems as [|e elems IH]; intros toReturn.
  - exists toReturn. simpl. repeat split; auto; try lia; tauto.
  - cbn [Method.each]. rewrite add_language_raw. cbn [bind].
    set (st := match raw_id e with
               | Some r => Js.set_add toReturn r
               | None => toReturn
               end).
    assert (Hst : (List.length st <= S (List.length toReturn))%nat
                  /\ (forall y, In y toReturn -> In y st)
                  /\ (forall y, In y st ->
                                In y toReturn \/ raw_id e = Some y)
                  /\ (forall r, raw_id e = Some r -> Js.includes st r = true)
                  /\ (NoDup toReturn -> NoDup st)).
    { subst st. destruct (raw_id e) as [r|].
      - destruct (set_add_spec toReturn r) as (H1 & H2 & H3 & H4 & H5).
        repeat split; auto.
        + intros y Hy. destruct (H3 y Hy); subst; auto.
        + intros r' Hr'. inversion Hr'; subst. exact H4.
      - repeat split; auto. discriminate. }
    destruct Hst as (Hlen & Hkeep & Hfrom & Hnew & Hnd).
    destruct (IH st) as (st' & Hrun & Hlen' & Hkeep' & Hfrom' & Hnew' & Hnd').
    exists st'. split; [exact Hrun|]. simpl. repeat split.
    + lia.
    + auto.
    + intros r Hr. destruct (Hfrom' r Hr) as [Hr' | (e' & He' & Hraw)].
      * destruct (Hfrom r Hr'); eauto.
      * eauto.
    + intros e' r [<- | He'] Hraw.
      * apply (includes_mono st); auto.
      * eauto.
    + auto.
Qed.

(** X5. For a language given as an array, [getLanguageId] returns at most
    one identifier per entry. *)
Theorem getLanguageId_at_most_one_per_entry
        (obj languageOptions : value) (a : loc) (elems ids : list value) :
  Js.get_member obj "language" = Ok (VArr a elems) ->
  getLanguageId obj languageOptions = Ok ids ->
  (List.length ids <= List.length elems)%nat.
Proof.
  intros Hl. pose proof (get_member_Ok_not_undefined _ _ _ Hl) as Hobj.
  unfold getLanguageId. rewrite Hobj, Hl.
  cbn [bind Js.eq_undefined Js.is_string Method.forEach].
  destruct (each_add_language_spec elems []) as (st & -> & Hlen & _).
  cbn [bind]. intros Hmap. apply array_map_length in Hmap.
  simpl in Hlen. lia.
Qed.

Lemma getLanguageId_at_most_one_per_entry_witness :
  (List.length [ VStr "http://vocab.getty.edu/aat/300388277"; NO_LANGUAGE ]
   <= List.length [ VStr "en"; VStr "en"; VNull; VObj 12 [] ])%nat.
Proof.
  apply (getLanguageId_at_most_one_per_entry
           (VObj 10 [ ("language",
                       VArr 11 [ VStr "en"; VStr "en"; VNull; VObj 12 [] ]) ])
           VUndefined 11);
    reflexivity.
Defined.

Lemma same_value_zero_string (r : value) (s : string) :
  Js.same_value_zero r (VStr s) = true -> r = VStr s.
Proof.
  destruct r; simpl; try discriminate.
  intros H. apply String.eqb_eq in H. now subst.
Qed.

(** The run of [getLanguageId] on an array: the [Set] it builds and the
    list it maps the [Set] to. *)
Lemma getLanguageId_array_run
      (obj languageOptions : value) (a : loc) (elems ids : list value) :
  Js.get_member obj "language" = Ok (VArr a elems) ->
  getLanguageId obj languageOptions = Ok ids ->
  exists set,
    Method.each add_language elems [] = Ok set
    /\ Forall2 (fun x y => normalizeLanguageId x languageOptions = Ok y)
               set ids.
Proof.
  intros Hl. pose proof (get_member_Ok_not_undefined _ _ _ Hl) as Hobj.
  unfold getLanguageId. rewrite Hobj, Hl.
  cbn [bind Js.eq_undefined Js.is_string Method.forEach].
  destruct (Method.each add_language elems []) as [set|]; cbn [bind];
    [|discriminate].
  intros Hmap. exists set. split; [reflexivity|].
  now apply array_map_Forall2.
Qed.

Lemma getLanguageId_entry_member
      (obj languageOptions : value) (a : loc) (elems ids : list value)
      (e r v : value) :
  Js.get_member obj "language" = Ok (VArr a elems) ->
  getLanguageId obj languageOptions = Ok ids ->
  In e elems -> raw_id e = Some r ->
  normalizeLanguageId r languageOptions = Ok v ->
  In v ids.
Proof.
  intros Hl Hget He Hraw Hnorm.
  destruct (getLanguageId_array_run _ _ _ _ _ Hl Hget) as (set & Hrun & Hmap).
  destruct (each_add_language_spec elems [])
    as (set' & Hrun' & _ & _ & Hfrom & Hnew & _).
  rewrite Hrun in Hrun'. inversion Hrun'; subst set'. clear Hrun'.
  pose proof (Hnew e r He Hraw) as Hin.
  apply existsb_exists in Hin as (y & Hy & Hry).
  destruct (Forall2_In_l _ _ _ _ Hmap Hy) as (w & Hw & Hyw).
  assert (Hstr : Js.is_string y = true).
  { destruct (Hfrom y Hy) as [[] | (e' & _ & Hraw')].
    pose proof (raw_id_not_undefined _ _ Hraw') as Hnu.
    assert (Hret : returns (normalizeLanguageId y languageOptions))
      by (rewrite Hyw; exact I).
    apply normalizeLanguageId_returns_iff in Hret.
    unfold absent_or_string in Hret. now rewrite Hnu in Hret. }
  destruct y; try discriminate.
  apply same_value_zero_string in Hry. subst r.
  rewrite Hyw in Hnorm. inversion Hnorm; subst. exact Hw.
Qed.

(** X6. For a language given as an array, the list returned holds exactly
    the normalized identifiers of the entries: every member is the
    normalization of the identifier some entry contributes (the sentinel for
    undefined or null, a string entry itself, a truthy [id]), and the
    identifier every entry contributes has its normalization in the list. *)
Theorem getLanguageId_members
        (obj languageOptions : value) (a : loc) (elems ids : list value) :
  Js.get_member obj "language" = Ok (VArr a elems) ->
  getLanguageId obj languageOptions = Ok ids ->
  forall v,
    In v ids
    <-> exists e r,
        In e elems /\ raw_id e = Some r
        /\ normalizeLanguageId r languageOptions = Ok v.
Proof.
  intros Hl Hget v. split.
  - intros Hv.
    destruct (getLanguageId_array_run _ _ _ _ _ Hl Hget) as (set & Hrun & Hmap).
    destruct (each_add_language_spec elems [])
      as (set' & Hrun' & _ & _ & Hfrom & _).
    rewrite Hrun in Hrun'. inversion Hrun'; subst set'. clear Hrun'.
    destruct (Forall2_In_r _ _ _ _ Hmap Hv) as (x & Hx & Hnorm).
    destruct (Hfrom x Hx) as [[] | (e & He & Hraw)]. eauto.
  - intros (e & r & He & Hraw & Hnorm).
    exact (getLanguageId_entry_member _ _ _ _ _ e r v Hl Hget He Hraw Hnorm).
Qed.

Lemma getLanguageId_members_witness :
  In (VStr "http://vocab.getty.edu/aat/300388306")
     [ VStr "http://vocab.getty.edu/aat/300388277";
       VStr "http://vocab.getty.edu/aat/300388306" ].
Proof.
  apply (getLanguageId_members
           (VObj 10 [ ("language",
                       VArr 11 [ VStr "en";
                                 VObj 12 [ ("id", VStr "FR") ] ]) ])
           VUndefined 11
           [ VStr "en"; VObj 12 [ ("id", VStr "FR") ] ]
           [ VStr "http://vocab.getty.edu/aat/300388277";
             VStr "http://vocab.getty.edu/aat/300388306" ]
           eq_refl eq_refl).
  exists (VObj 12 [ ("id", VStr "FR") ]), (VStr "FR").
  split; [right; left; reflexivity|]. split; reflexivity.
Defined.

Lemma Forall2_NoDup {A B : Type} (R : A -> B -> Prop) (l : list A)
      (l' : list B) :
  Forall2 R l l' ->
  (forall x1 x2 y, In x1 l -> In x2 l -> R x1 y -> R x2 y -> x1 = x2) ->
  NoDup l -> NoDup l'.
Proof.
  induction 1 as [|x y l l' Hxy Hrest IH]; intros Hinj Hnd.
  - constructor.
  - inversion Hnd as [|? ? Hx Hl]; subst. constructor.
    + intros Hy. destruct (Forall2_In_r _ _ _ _ Hrest Hy) as (x' & Hx' & Hx'y).
      assert (x = x') by (apply (Hinj x x' y); simpl; auto).
      subst. tauto.
    + apply IH; [|exact Hl].
      intros x1 x2 y' H1 H2. apply Hinj; simpl; auto.
Qed.

(** X7. The [Set] keeps the raw identifiers apart, so the list returned for
    a language array has no duplicates whenever normalization does not send
    two different raw identifiers of the entries to one value. *)
Theorem getLanguageId_unique_when_injective
        (obj languageOptions : value) (a : loc) (elems ids : list value) :
  Js.get_member obj "language" = Ok (VArr a elems) ->
  getLanguageId obj languageOptions = Ok ids ->
  (forall e1 e2 r1 r2 v,
      In e1 elems -> In e2 elems ->
      raw_id e1 = Some r1 -> raw_id e2 = Some r2 ->
      normalizeLanguageId r1 languageOptions = Ok v ->
      normalizeLanguageId r2 languageOptions = Ok v ->
      r1 = r2) ->
  NoDup ids.
Proof.
  intros Hl Hget Hinj.
  destruct (getLanguageId_array_run _ _ _ _ _ Hl Hget) as (set & Hrun & Hmap).
  destruct (each_add_language_spec elems [])
    as (set' & Hrun' & _ & _ & Hfrom & _ & Hnd).
  rewrite Hrun in Hrun'. inversion Hrun'; subst set'. clear Hrun'.
  apply (Forall2_NoDup _ _ _ Hmap); [|apply Hnd; constructor].
  intros x1 x2 y H1 H2 Hn1 Hn2.
  destruct (Hfrom x1 H1) as [[] | (e1 & He1 & Hr1)].
  destruct (Hfrom x2 H2) as [[] | (e2 & He2 & Hr2)].
  apply (Hinj e1 e2 x1 x2 y); assumption.
Qed.

Lemma getLanguageId_unique_when_injective_witness :
  NoDup [ VStr "http://vocab.getty.edu/aat/300388277";
          VStr "http://vocab.getty.edu/aat/300388306" ].
Proof.
  apply (getLanguageId_unique_when_injective
           (VObj 10 [ ("language", VArr 11 [ VStr "en"; VStr "fr"; VStr "en" ]) ])
           VUndefined 11 [ VStr "en"; VStr "fr"; VStr "en" ]
           [ VStr "http://vocab.getty.edu/aat/300388277";
             VStr "http://vocab.getty.edu/aat/300388306" ]
           eq_refl eq_refl).
  intros e1 e2 r1 r2 v H1 H2 Hr1 Hr2 Hn1 Hn2.
  simpl in H1, H2.
  destruct H1 as [<- | [<- | [<- | []]]];
    destruct H2 as [<- | [<- | [<- | []]]];
    inversion Hr1; inversion Hr2; subst; try reflexivity;
    vm_compute in Hn1, Hn2; congruence.
Defined.

(** ** Matching *)

Lemma unlabelled_ids (obj languageOptions : value) :
  unlabelled obj = true ->
  getLanguageId obj languageOptions = Ok [NO_LANGUAGE].
Proof.
  unfold unlabelled, getLanguageId.
  destruct (Js.eq_undefined obj); [reflexivity|]. cbn [orb].
  destruct (Js.get_member obj "language") as [language|]; [|discriminate].
  cbn [bind]. intros ->. reflexivity.
Qed.

(** X8. A fragment matches the language it declares: when [language] is a
    string, a request for that very string is answered true under every
    options value, null included. *)
Theorem fragment_matches_its_language
        (obj languageOptions : value) (s : string) :
  Js.get_member obj "language" = Ok (VStr s) ->
  doesObjectLanguageMatch obj (VStr s) languageOptions = Ok true.
Proof.
  intros Hl. pose proof (get_member_Ok_not_undefined _ _ _ Hl) as Hobj.
  unfold doesObjectLanguageMatch, getLanguageId. cbv zeta.
  rewrite Hobj, Hl. cbn [Js.eq_undefined Js.is_string bind].
  destruct (normalizeLanguageId_string s (default_options languageOptions))
    as [v ->].
  cbn [bind Js.includes existsb]. now rewrite same_value_zero_refl.
Qed.

Lemma fragment_matches_its_language_witness :
  doesObjectLanguageMatch (VObj 10 [ ("language", VStr "de") ]) (VStr "de")
                          VNull
  = Ok true.
Proof.
  apply (fragment_matches_its_language
           (VObj 10 [ ("language", VStr "de") ]) VNull "de").
  reflexivity.
Defined.

(** X9. A fragment whose language is an array of well-formed entries
    matches a request for the string any of its entries contributes, be the
    entry the string itself or an object with that [id]. *)
Theorem fragment_matches_each_entry
        (obj languageOptions e : value) (a : loc) (elems : list value)
        (s : string) :
  Js.get_member obj "language" = Ok (VArr a elems) ->
  forallb well_formed_entry elems = true ->
  In e elems ->
  raw_id e = Some (VStr s) ->
  doesObjectLanguageMatch obj (VStr s) languageOptions = Ok true.
Proof.
  intros Hl Hwf He Hraw.
  assert (Hfrag : well_formed_fragment obj = true).
  { unfold well_formed_fragment. rewrite Hl, Hwf. apply orb_true_r. }
  destruct (returns_Ok _ (getLanguageId_returns
                            obj (default_options languageOptions) Hfrag))
    as [ids Hids].
  destruct (normalizeLanguageId_string s (default_options languageOptions))
    as [v Hv].
  assert (Hin : In v ids).
  { exact (getLanguageId_entry_member _ _ _ _ _ e (VStr s) v
                                       Hl Hids He Hraw Hv). }
  unfold doesObjectLanguageMatch. cbv zeta.
  cbn [Js.eq_undefined]. rewrite Hids. cbn [bind]. rewrite Hv. cbn [bind].
  now rewrite (includes_In ids v Hin).
Qed.

Lemma fragment_matches_each_entry_witness :
  doesObjectLanguageMatch
    (VObj 10 [ ("language",
                VArr 11 [ VStr "en"; VObj 12 [ ("id", VStr "it") ] ]) ])
    (VStr "it")
    (VObj 13 [ ("includeItemsWithNoLanguage", VBool false) ])
  = Ok true.
Proof.
  apply (fragment_matches_each_entry
           _ _ (VObj 12 [ ("id", VStr "it") ]) 11
           [ VStr "en"; VObj 12 [ ("id", VStr "it") ] ] "it").
  - reflexivity.
  - reflexivity.
  - right. left. reflexivity.
  - reflexivity.
Defined.

(** The rest of [doesObjectLanguageMatch] once the first test has failed and
    the identifiers of the fragment and of the request are known. *)
Lemma doesObjectLanguageMatch_run
      (object language languageOptions wanted : value) (lang_ids : list value) :
  Js.eq_undefined language = false ->
  getLanguageId object (default_options languageOptions) = Ok lang_ids ->
  normalizeLanguageId language (default_options languageOptions) = Ok wanted ->
  doesObjectLanguageMatch object language languageOptions
  = if Js.includes lang_ids wanted then Ok true
    else
      fallbackLanguage <-
        Js.get_member (default_options languageOptions) "fallbackLanguage" ;;
      fallback_matches <-
        (if negb (Js.eq_undefined fallbackLanguage) then
           fallback <- normalizeLanguageId fallbackLanguage
                                           (default_options languageOptions) ;;
           Ok (Js.includes lang_ids fallback)
         else Ok false) ;;
      if fallback_matches then Ok true
      else if Js.includes lang_ids NO_LANGUAGE
              || (List.length lang_ids =? 0)%nat then
        opt_out <- Js.get_member (default_options languageOptions)
                                 "includeItemsWithNoLanguage" ;;
        excluded <- Js.eq_false opt_out ;;
        if excluded then Ok false else Ok true
      else Ok false.
Proof.
  intros Hl Hids Hw. unfold doesObjectLanguageMatch. cbv zeta.
  rewrite Hl, Hids. cbn [bind]. rewrite Hw. reflexivity.
Qed.

(** X10. The requested language and the fallback language are
    interchangeable: asking for [a] with fallback [b] and asking for [b]
    with fallback [a] give the same answer, the options being otherwise
    alike. *)
Theorem requested_and_fallback_commute
        (obj o1 o2 : value) (a b : string) :
  Js.get_member o1 "fallbackLanguage" = Ok (VStr b) ->
  Js.get_member o2 "fallbackLanguage" = Ok (VStr a) ->
  Js.get_member o1 "lookupMap" = Js.get_member o2 "lookupMap" ->
  Js.get_member o1 "includeItemsWithNoLanguage"
  = Js.get_member o2 "includeItemsWithNoLanguage" ->
  doesObjectLanguageMatch obj (VStr a) o1
  = doesObjectLanguageMatch obj (VStr b) o2.
Proof.
  intros Hf1 Hf2 Hmap Hopt.
  assert (Ht : forall o s, Js.get_member o "fallbackLanguage" = Ok (VStr s) ->
                           Js.truthy o = true /\ default_options o = o).
  { intros o s H.
    destruct o; try (vm_compute in H; discriminate); split; reflexivity. }
  destruct (Ht o1 b Hf1) as [Ht1 Hd1]. destruct (Ht o2 a Hf2) as [Ht2 Hd2].
  pose proof (active_lookupMap_by_members o1 o2 Ht1 Ht2 Hmap) as Hm.
  unfold doesObjectLanguageMatch. cbv zeta. rewrite Hd1, Hd2, Hf1, Hf2, Hopt.
  cbn [Js.eq_undefined negb bind].
  rewrite (getLanguageId_same_map o1 o2 obj Hm).
  rewrite (normalizeLanguageId_same_map o1 o2 (VStr a) Hm).
  rewrite (normalizeLanguageId_same_map o1 o2 (VStr b) Hm).
  destruct (getLanguageId obj o2) as [ids|]; cbn [bind]; [|reflexivity].
  destruct (normalizeLanguageId_string a o2) as [na ->].
  destruct (normalizeLanguageId_string b o2) as [nb ->].
  cbn [bind].
  destruct (Js.includes ids na), (Js.includes ids nb); reflexivity.
Qed.

Lemma requested_and_fallback_commute_witness :
  doesObjectLanguageMatch (VObj 10 [ ("language", VStr "fr") ]) (VStr "en")
                          (VObj 11 [ ("fallbackLanguage", VStr "fr") ])
  = doesObjectLanguageMatch (VObj 10 [ ("language", VStr "fr") ]) (VStr "fr")
                            (VObj 12 [ ("fallbackLanguage", VStr "en") ]).
Proof.
  apply requested_and_fallback_commute; reflexivity.
Defined.

(** X11. The default [{}] replaces undefined options only.  With null
    options and a well-formed fragment, a request for a string is answered
    true when the requested language is among the fragment's identifiers and
    throws a TypeError otherwise, on reading [fallbackLanguage]. *)
Theorem null_options_throw_unless_matched (obj : value) (s : string) :
  well_formed_fragment obj = true ->
  exists lang_ids wanted,
    getLanguageId obj VNull = Ok lang_ids
    /\ normalizeLanguageId (VStr s) VNull = Ok wanted
    /\ doesObjectLanguageMatch obj (VStr s) VNull
       = if Js.includes lang_ids wanted then Ok true else Throw TypeError.
Proof.
  intros Hfrag.
  destruct (returns_Ok _ (getLanguageId_returns obj VNull Hfrag))
    as [lang_ids Hids].
  destruct (normalizeLanguageId_string s VNull) as [wanted Hw].
  exists lang_ids, wanted. split; [exact Hids|]. split; [exact Hw|].
  rewrite (doesObjectLanguageMatch_run obj (VStr s) VNull wanted lang_ids
             eq_refl Hids Hw).
  reflexivity.
Qed.

Lemma null_options_throw_unless_matched_witness :
  exists lang_ids wanted,
    getLanguageId (VObj 10 [ ("language", VStr "fr") ]) VNull = Ok lang_ids
    /\ normalizeLanguageId (VStr "en") VNull = Ok wanted
    /\ doesObjectLanguageMatch (VObj 10 [ ("language", VStr "fr") ])
                               (VStr "en") VNull
       = if Js.includes lang_ids wanted then Ok true else Throw TypeError.
Proof.
  apply (null_options_throw_unless_matched
           (VObj 10 [ ("language", VStr "fr") ]) "en").
  reflexivity.
Defined.

(** X12. A fragment that declares no language is included by default: it
    matches every requested string, whatever the lookup map and the fallback
    language (a string or absent), unless [includeItemsWithNoLanguage] is
    loosely equal to false. *)
Theorem unlabelled_fragment_matches_by_default
        (obj languageOptions fallbackLanguage opt_out : value) (s : string) :
  unlabelled obj = true ->
  Js.get_member (default_options languageOptions) "fallbackLanguage"
  = Ok fallbackLanguage ->
  absent_or_string fallbackLanguage = true ->
  Js.get_member (default_options languageOptions) "includeItemsWithNoLanguage"
  = Ok opt_out ->
  Js.eq_false opt_out = Ok false ->
  doesObjectLanguageMatch obj (VStr s) languageOptions = Ok true.
Proof.
  intros Hun Hfb Hfbs Hopt Hex.
  destruct (normalizeLanguageId_string s (default_options languageOptions))
    as [wanted Hw].
  rewrite (doesObjectLanguageMatch_run obj (VStr s) languageOptions wanted
             [NO_LANGUAGE] eq_refl (unlabelled_ids obj _ Hun) Hw).
  destruct (Js.includes [NO_LANGUAGE] wanted); [reflexivity|].
  rewrite Hfb. cbn [bind].
  assert (Hrule :
            (if Js.includes [NO_LANGUAGE] NO_LANGUAGE
                || (List.length [NO_LANGUAGE] =? 0)%nat
             then opt_out <- Js.get_member (default_options languageOptions)
                                           "includeItemsWithNoLanguage" ;;
                  excluded <- Js.eq_false opt_out ;;
                  (if excluded then Ok false else Ok true)
             else Ok false) = Ok true).
  { cbn [Js.includes existsb NO_LANGUAGE Js.same_value_zero orb].
    rewrite String.eqb_refl. cbn [orb]. rewrite Hopt. cbn [bind].
    rewrite Hex. reflexivity. }
  destruct (Js.eq_undefined fallbackLanguage) eqn:Hu; cbn [negb bind].
  - exact Hrule.
  - destruct (returns_Ok _ (proj2 (normalizeLanguageId_returns_iff
                                     fallbackLanguage
                                     (default_options languageOptions))
                                  Hfbs)) as [fallback ->].
    cbn [bind]. destruct (Js.includes [NO_LANGUAGE] fallback);
      [reflexivity | exact Hrule].
Qed.

Lemma unlabelled_fragment_matches_by_default_witness :
  doesObjectLanguageMatch (VObj 10 [ ("content", VStr "test") ]) (VStr "cy")
                          (VObj 11 [ ("fallbackLanguage", VStr "en") ])
  = Ok true.
Proof.
  apply (unlabelled_fragment_matches_by_default
           (VObj 10 [ ("content", VStr "test") ])
           (VObj 11 [ ("fallbackLanguage", VStr "en") ])
           (VStr "en") VUndefined "cy");
    reflexivity.
Defined.

(** X13. The sentinel is an ordinary string to the request: where the map
    in force holds nothing under "no_language", a request for "NO_LANGUAGE"
    matches every fragment that declares no language, by the first rule and
    so regardless of [includeItemsWithNoLanguage] and of the rest of the
    options. *)
Theorem sentinel_request_matches_unlabelled
        (obj languageOptions m w : value) :
  unlabelled obj = true ->
  active_lookupMap (default_options languageOptions) = Ok m ->
  Js.get_member m "no_language" = Ok w ->
  Js.eq_undefined w = true ->
  doesObjectLanguageMatch obj NO_LANGUAGE languageOptions = Ok true.
Proof.
  intros Hun Hm Hw Hu.
  assert (Hn : normalizeLanguageId NO_LANGUAGE (default_options languageOptions)
               = Ok NO_LANGUAGE).
  { unfold NO_LANGUAGE.
    rewrite (normalizeLanguageId_by_key "NO_LANGUAGE" _ m w Hm Hw).
    now rewrite Hu. }
  rewrite (doesObjectLanguageMatch_run obj NO_LANGUAGE languageOptions
             NO_LANGUAGE [NO_LANGUAGE] eq_refl (unlabelled_ids obj _ Hun) Hn).
  reflexivity.
Qed.

Lemma sentinel_request_matches_unlabelled_witness :
  doesObjectLanguageMatch
    (VObj 10 [ ("content", VStr "test") ]) NO_LANGUAGE
    (VObj 11 [ ("includeItemsWithNoLanguage", VBool false) ])
  = Ok true.
Proof.
  apply (sentinel_request_matches_unlabelled
           _ _ DEFAULT_LANGUAGE_LOOKUP VUndefined);
    reflexivity.
Defined.

(** X14. A request may name a mapped language by its code, in any case, or
    by a URL ending in the code: both requests get the same answer for every
    fragment. *)
Theorem url_and_code_requests_agree
        (obj languageOptions m v : value) (prefix token : string) :
  Str.nonempty token = true ->
  Str.all_alpha token = true ->
  active_lookupMap (default_options languageOptions) = Ok m ->
  Js.get_member m (Str.toLowerCase token) = Ok v ->
  Js.eq_undefined v = false ->
  doesObjectLanguageMatch obj (VStr (prefix ++ String "/" token))
                          languageOptions
  = doesObjectLanguageMatch obj (VStr token) languageOptions.
Proof.
  intros Hn Ha Hm Hv Hdef.
  assert (Hurl : normalizeLanguageId (VStr (prefix ++ String "/" token))
                                     (default_options languageOptions) = Ok v).
  { rewrite (normalizeLanguageId_by_key _ _ m v Hm).
    - now rewrite Hdef.
    - now rewrite (key_of_url prefix token Hn Ha). }
  assert (Hcode : normalizeLanguageId (VStr token)
                                      (default_options languageOptions) = Ok v).
  { rewrite (normalizeLanguageId_by_key _ _ m v Hm).
    - now rewrite Hdef.
    - now rewrite (key_of_token token Ha). }
  unfold doesObjectLanguageMatch. cbv zeta. cbn [Js.eq_undefined].
  now rewrite Hurl, Hcode.
Qed.

Lemma url_and_code_requests_agree_witness :
  doesObjectLanguageMatch (VObj 10 [ ("language", VStr "es") ])
                          (VStr "http://vocab.getty.edu/language/ES") VUndefined
  = doesObjectLanguageMatch (VObj 10 [ ("language", VStr "es") ])
                            (VStr "ES") VUndefined.
Proof.
  apply (url_and_code_requests_agree
           _ VUndefined DEFAULT_LANGUAGE_LOOKUP
           (VStr "http://vocab.getty.edu/aat/300389311")
           "http://vocab.getty.edu/language" "ES");
    reflexivity.
Defined.

(** X15. [includeItemsWithNoLanguage] is consulted for unlabelled fragments
    only: when the identifiers of the fragment are not empty and do not hold
    the sentinel, two options objects that agree on [lookupMap] and
    [fallbackLanguage] give the same answer. *)
Theorem opt_out_only_affects_unlabelled
        (obj language o1 o2 : value) (lang_ids : list value) :
  Js.truthy o1 = true -> Js.truthy o2 = true ->
  Js.get_member o1 "lookupMap" = Js.get_member o2 "lookupMap" ->
  Js.get_member o1 "fallbackLanguage" = Js.get_member o2 "fallbackLanguage" ->
  getLanguageId obj o1 = Ok lang_ids ->
  Js.includes lang_ids NO_LANGUAGE = false ->
  lang_ids <> [] ->
  doesObjectLanguageMatch obj language o1
  = doesObjectLanguageMatch obj language o2.
Proof.
  intros Ht1 Ht2 Hmap Hfb Hids Hno Hne.
  pose proof (active_lookupMap_by_members o1 o2 Ht1 Ht2 Hmap) as Hm.
  assert (Hd : forall o, Js.truthy o = true -> default_options o = o).
  { intros o H. destruct o; try discriminate; reflexivity. }
  unfold doesObjectLanguageMatch. cbv zeta. rewrite (Hd o1 Ht1), (Hd o2 Ht2).
  destruct (Js.eq_undefined language); [reflexivity|].
  rewrite <- (getLanguageId_same_map o1 o2 obj Hm), Hids. cbn [bind].
  rewrite <- (normalizeLanguageId_same_map o1 o2 language Hm).
  destruct (normalizeLanguageId language o1) as [wanted|]; cbn [bind];
    [|reflexivity].
  destruct (Js.includes lang_ids wanted); [reflexivity|].
  rewrite <- Hfb.
  destruct (Js.get_member o1 "fallbackLanguage") as [fb|]; cbn [bind];
    [|reflexivity].
  rewrite <- (normalizeLanguageId_same_map o1 o2 fb Hm).
  assert (Hlen : (List.length lang_ids =? 0)%nat = false).
  { destruct lang_ids; [congruence | reflexivity]. }
  rewrite Hno, Hlen. cbn [orb].
  destruct (negb (Js.eq_undefined fb)); cbn [bind]; [|reflexivity].
  destruct (normalizeLanguageId fb o1) as [fallback|]; cbn [bind];
    [|reflexivity].
  reflexivity.
Qed.

Lemma opt_out_only_affects_unlabelled_witness :
  doesObjectLanguageMatch (VObj 10 [ ("language", VStr "fr") ]) (VStr "en")
                          (VObj 11 [ ("includeItemsWithNoLanguage", VBool false) ])
  = doesObjectLanguageMatch (VObj 10 [ ("language", VStr "fr") ]) (VStr "en")
                            (VObj 12 [ ("includeItemsWithNoLanguage", VBool true) ]).
Proof.
  apply (opt_out_only_affects_unlabelled
           _ _ _ _ [ VStr "http://vocab.getty.edu/aat/300388306" ]);
    try reflexivity.
  discriminate.
Defined.

(** ** getDimensionsDescriptions *)

(** The three parts of the statement below once the call has thrown. *)
Ltac settle_throw :=
  split; [intros ?; discriminate|];
  split; [intros ?; reflexivity|];
  intros _; reflexivity.

(** X16. [getDimensionsDescriptions] throws a TypeError when its options
    argument is null, which the default [= {}] does not replace.  When the
    resource is undefined or null it never returns and what
    [getValuesByClassification] would do is immaterial: [normalizeAatId] is
    called first, and where that returns the read of [referred_to_by]
    throws a TypeError. *)
Theorem getDimensionsDescriptions_throws
        (E : Type) (aat : value) (normalizeAatId : value -> outcome E value)
        (getValuesByClassification :
           value -> value -> value -> value -> outcome E value) :
  (forall submittedResource,
      getDimensionsDescriptions E aat normalizeAatId getValuesByClassification
                                submittedResource VNull
      = Thrown TypeError)
  /\ (forall submittedResource options,
         Js.eq_undefined submittedResource = true ->
         (forall v,
             getDimensionsDescriptions E aat normalizeAatId
               getValuesByClassification submittedResource options
             <> Returned v)
         /\ (forall other,
                getDimensionsDescriptions E aat normalizeAatId other
                                          submittedResource options
                = getDimensionsDescriptions E aat normalizeAatId
                    getValuesByClassification submittedResource options)
         /\ ((forall id, exists normalized,
                  normalizeAatId id = Returned normalized) ->
             getDimensionsDescriptions E aat normalizeAatId
               getValuesByClassification submittedResource options
             = Thrown TypeError)).
Proof.
  split; [reflexivity|].
  intros submittedResource options Hu.
  assert (Hr : Js.get_member submittedResource REFERRED_TO_BY = Throw TypeError).
  { destruct submittedResource; try discriminate; reflexivity. }
  unfold getDimensionsDescriptions. cbv zeta. rewrite Hr.
  cbn [lift and_then].
  set (options' := match options with
                   | VUndefined => VObj 2 []
                   | _ => options
                   end).
  destruct (Js.get_member options' "requestedClassification")
    as [requested|[]]; cbn [lift and_then];
    [|settle_throw].
  destruct (match requested with
            | VUndefined => lift (Js.get_member aat "DIMENSIONS_DESCRIPTION")
            | _ => Returned requested
            end) as [classification|[]|e] eqn:Hc; cbn [and_then].
  - destruct (Js.get_member options' "language") as [language|[]];
      cbn [lift and_then];
      [|settle_throw].
    destruct (Js.get_member options' "languageOptions") as [given|[]];
      cbn [lift and_then];
      [|settle_throw].
    destruct (normalizeAatId classification) as [normalized|[]|e] eqn:Hn;
      cbn [lift and_then]; try settle_throw.
    split; [intros v; discriminate|].
    split; [intros other; reflexivity|].
    intros Hall. destruct (Hall classification) as [normalized Hn'].
    congruence.
  - settle_throw.
  - exfalso. destruct requested; try discriminate.
    destruct (Js.get_member aat "DIMENSIONS_DESCRIPTION"); discriminate.
Qed.

Lemma getDimensionsDescriptions_throws_witness :
  getDimensionsDescriptions
    unit (VObj 10 []) (fun id => Returned id)
    (fun entries _ _ _ => Returned entries)
    VUndefined VUndefined
  = Thrown TypeError.
Proof.
  destruct (proj2 (getDimensionsDescriptions_throws
                     unit (VObj 10 []) (fun id => Returned id)
                     (fun entries _ _ _ => Returned entries))
                  VUndefined VUndefined eq_refl) as (_ & _ & Htype).
  apply Htype. intros id. exists id. reflexivity.
Defined.

(** An exception of [normalizeAatId] comes before the read of the
    resource. *)
Example getDimensionsDescriptions_normalize_first :
  getDimensionsDescriptions
    unit (VObj 10 []) (fun _ => Raised tt)
    (fun entries _ _ _ => Returned entries)
    VUndefined VUndefined
  = Raised tt.
Proof. reflexivity. Qed.
